(** * URL shortener service (backend/server.py): model and properties

    The handlers of [backend/server.py] are embedded as functions in a
    state-and-exception monad over an explicit world: the [url_mappings]
    collection, and the cursors into the environment's oracles (the
    [random] module, [os.urandom], the UTC clock and the store's faults).

    Python [str] values are modelled as [string]; one [ascii] stands for one
    code point in the range 0..255.  Logging is not modelled. *)

From Stdlib Require Import List String Ascii ZArith Lia Bool Arith PeanoNat.
From Stdlib Require Import DecimalString Sorting.Sorted Sorting.Permutation.
Import ListNotations.

Local Open Scope string_scope.
Local Open Scope Z_scope.

(** ** Python string helpers *)

Module PyStr.

Definition code (c : ascii) : nat := nat_of_ascii c.

Definition in_range (lo hi c : ascii) : bool :=
  (code lo <=? code c)%nat && (code c <=? code hi)%nat.

Definition is_lower (c : ascii) : bool := in_range "a" "z" c.
Definition is_upper (c : ascii) : bool := in_range "A" "Z" c.
Definition is_digit (c : ascii) : bool := in_range "0" "9" c.
Definition is_alpha (c : ascii) : bool := is_lower c || is_upper c.
Definition is_alnum (c : ascii) : bool := is_alpha c || is_digit c.

(** [str.isspace] on the code points 0..255: TAB..CR, FS..US, space,
    NEL (0x85) and NBSP (0xA0).  The regex class [\s] is the same set. *)
Definition is_space (c : ascii) : bool :=
  let n := code c in
  ((9 <=? n) && (n <=? 13) || (28 <=? n) && (n <=? 32)
   || (n =? 133) || (n =? 160))%nat.

(** ASCII case folding, as [re.IGNORECASE] applies it to a literal. *)
Definition to_lower (c : ascii) : ascii :=
  if is_upper c then ascii_of_nat (code c + 32) else c.

Definition eq_ci (a c : ascii) : bool := Ascii.eqb (to_lower a) (to_lower c).

Fixpoint all (p : ascii -> bool) (s : string) : bool :=
  match s with
  | EmptyString => true
  | String c s' => p c && all p s'
  end.

(** [s.startswith(p)] *)
Definition startswith (p s : string) : bool := String.prefix p s.

(** [s.lstrip()], [s.rstrip()] and [s.strip()] without arguments *)
Fixpoint lstrip (s : string) : string :=
  match s with
  | EmptyString => EmptyString
  | String c s' => if is_space c then lstrip s' else s
  end.

Fixpoint rstrip (s : string) : string :=
  match s with
  | EmptyString => EmptyString
  | String c s' =>
      match rstrip s' with
      | EmptyString => if is_space c then EmptyString else String c EmptyString
      | r => String c r
      end
  end.

Definition strip (s : string) : string := rstrip (lstrip s).

(** [s[:n]] for a non-negative [n] *)
Definition slice_to (n : nat) (s : string) : string := substring 0 n s.

(** [s[i]] on a string known to be long enough; NUL otherwise. *)
Definition index (i : nat) (s : string) : ascii :=
  match String.get i s with
  | Some c => c
  | None => zero
  end.

(** [str(n)] for a non-negative integer *)
Definition of_nat (n : nat) : string := NilEmpty.string_of_uint (Nat.to_uint n).

(** The last character and what precedes it. *)
Fixpoint split_last (s : string) : option (string * ascii) :=
  match s with
  | EmptyString => None
  | String c s' =>
      match split_last s' with
      | None => Some (EmptyString, c)
      | Some (r, l) => Some (String c r, l)
      end
  end.

End PyStr.

(** ** Regular expressions

    The patterns of the validators use literals, character classes,
    grouping, alternation, [?], [+] and bounded repetition.  For such
    patterns [re.match] succeeds exactly when some prefix is in the
    pattern's language, so matching is decided with derivatives. *)

Module Re.

Inductive re : Type :=
| Void
| Eps
| Cls (p : ascii -> bool)
| Cat (r s : re)
| Alt (r s : re)
| Star (r : re).

Fixpoint nullable (r : re) : bool :=
  match r with
  | Void => false
  | Eps => true
  | Cls _ => false
  | Cat r s => nullable r && nullable s
  | Alt r s => nullable r || nullable s
  | Star _ => true
  end.

Definition cat (r s : re) : re :=
  match r, s with
  | Void, _ => Void
  | _, Void => Void
  | Eps, _ => s
  | _, Eps => r
  | _, _ => Cat r s
  end.

Definition alt (r s : re) : re :=
  match r, s with
  | Void, _ => s
  | _, Void => r
  | _, _ => Alt r s
  end.

Fixpoint deriv (c : ascii) (r : re) : re :=
  match r with
  | Void => Void
  | Eps => Void
  | Cls p => if p c then Eps else Void
  | Cat r s =>
      if nullable r then alt (cat (deriv c r) s) (deriv c s)
      else cat (deriv c r) s
  | Alt r s => alt (deriv c r) (deriv c s)
  | Star r => cat (deriv c r) (Star r)
  end.

(** The whole of [s] is in the language of [r]. *)
Fixpoint fullmatch (r : re) (s : string) : bool :=
  match s with
  | EmptyString => nullable r
  | String c s' => fullmatch (deriv c r) s'
  end.

(** [re.match('^' r '$', s)] without [re.MULTILINE]: [$] holds at the end
    of the string and also just before a newline that ends the string. *)
Definition match_to_dollar (r : re) (s : string) : bool :=
  fullmatch r s
  || match PyStr.split_last s with
     | Some (s', l) => Ascii.eqb l "010" && fullmatch r s'
     | None => false
     end.

(** Pattern syntax *)
Definition chr (c : ascii) : re := Cls (Ascii.eqb c).
Definition chr_ci (c : ascii) : re := Cls (PyStr.eq_ci c).
Definition opt (r : re) : re := Alt r Eps.
Definition plus (r : re) : re := Cat r (Star r).

Fixpoint lit (s : string) : re :=
  match s with
  | EmptyString => Eps
  | String c s' => Cat (chr c) (lit s')
  end.

Fixpoint lit_ci (s : string) : re :=
  match s with
  | EmptyString => Eps
  | String c s' => Cat (chr_ci c) (lit_ci s')
  end.

(** [r{0,n}] *)
Fixpoint upto (n : nat) (r : re) : re :=
  match n with
  | O => Eps
  | S k => opt (Cat r (upto k r))
  end.

(** [r{m,m+n}] *)
Fixpoint rep (m n : nat) (r : re) : re :=
  match m with
  | O => upto n r
  | S k => Cat r (rep k n r)
  end.

End Re.

(** ** Exceptions and the service monad *)

Inductive exn : Type :=
| HTTPException (status_code : Z) (detail : string)
| ValueError (msg : string)
| ValidationError (model : string) (errors : list (string * string))
    (* pydantic: the (field, message) pairs; a ValueError *)
| PyMongoError (msg : string).

Inductive Result (A : Type) : Type :=
| Ok (a : A)
| Raise (e : exn).
Arguments Ok {A} a.
Arguments Raise {A} e.

(** [isinstance(e, ValueError)] *)
Definition is_ValueError (e : exn) : bool :=
  match e with
  | ValueError _ | ValidationError _ _ => true
  | _ => false
  end.

Definition is_HTTPException (e : exn) : bool :=
  match e with
  | HTTPException _ _ => true
  | _ => false
  end.

(** ** Request models and their validators *)

Module URLShortenRequest.

Import Re.

Definition alnum : re := Cls PyStr.is_alnum.
Definition alnum_dash : re := Cls (fun c => PyStr.is_alnum c || Ascii.eqb c "-").
Definition alpha : re := Cls PyStr.is_alpha.
Definition digit : re := Cls PyStr.is_digit.
Definition nonspace : re := Cls (fun c => negb (PyStr.is_space c)).

(** [(?:[A-Z0-9](?:[A-Z0-9-]{0,61}[A-Z0-9])?\.)+[A-Z]{2,6}\.?] *)
Definition domain : re :=
  Cat (plus (Cat alnum (Cat (opt (Cat (rep 0 61 alnum_dash) alnum)) (chr "."))))
      (Cat (rep 2 4 alpha) (opt (chr "."))).

(** [\d{1,3}\.\d{1,3}\.\d{1,3}\.\d{1,3}] *)
Definition octet : re := rep 1 2 digit.
Definition ip : re :=
  Cat octet (Cat (chr ".") (Cat octet (Cat (chr ".")
    (Cat octet (Cat (chr ".") octet))))).

(** The compiled [url_pattern] (with [re.IGNORECASE]) up to its [$]. *)
Definition url_pattern : re :=
  Cat (lit_ci "http") (Cat (opt (chr_ci "s")) (Cat (lit "://")
    (Cat (Alt domain (Alt (lit_ci "localhost") ip))
      (Cat (opt (Cat (chr ":") (plus digit)))
        (Alt (opt (chr "/"))
             (Cat (Cls (fun c => Ascii.eqb c "/" || Ascii.eqb c "?"))
                  (plus nonspace))))))).

Definition has_scheme (v : string) : bool :=
  PyStr.startswith "http://" v || PyStr.startswith "https://" v.

Definition validate_url (v : string) : Result string :=
  let v := if negb (has_scheme v) then "https://" ++ v else v in
  if negb (match_to_dollar url_pattern v) then
    Raise (ValueError "Invalid URL format")
  else Ok v.

(** [^[a-zA-Z0-9_-]+$] up to its [$] *)
Definition code_pattern : re :=
  plus (Cls (fun c => PyStr.is_alnum c || Ascii.eqb c "_" || Ascii.eqb c "-")).

Definition validate_custom_code (v : option string) : Result (option string) :=
  match v with
  | Some s =>
      if ((String.length s <? 3) || (20 <? String.length s))%nat then
        Raise (ValueError "Custom code must be between 3 and 20 characters")
      else if negb (match_to_dollar code_pattern s) then
        Raise (ValueError
          "Custom code can only contain letters, numbers, hyphens, and underscores")
      else Ok v
  | None => Ok v
  end.

Record t : Type := mk { url : string; custom_code : option string }.

(** The errors a field contributes to pydantic's [ValidationError]. *)
Definition field_errors {A} (field : string) (r : Result A)
  : list (string * string) :=
  match r with
  | Raise (ValueError msg) => [(field, msg)]
  | _ => []
  end.

(** [URLShortenRequest(url=u, custom_code=c)]: every field validator runs,
    in field order; the model exists only when both accept, and otherwise
    one [ValidationError] lists the fields that failed. *)
Definition new (u : string) (c : option string) : Result t :=
  match validate_url u, validate_custom_code c with
  | Ok u', Ok c' => Ok (mk u' c')
  | ru, rc =>
      Raise (ValidationError "URLShortenRequest"
               (field_errors "url" ru ++ field_errors "custom_code" rc))
  end.

End URLShortenRequest.

Module BulkURLShortenRequest.

Definition validate_urls (v : list string) : Result (list string) :=
  if (50 <? List.length v)%nat then
    Raise (ValueError "Maximum 50 URLs allowed per bulk request")
  else if (List.length v =? 0)%nat then
    Raise (ValueError "At least one URL is required")
  else Ok v.

Record t : Type := mk { urls : list string }.

Definition new (v : list string) : Result t :=
  match validate_urls v with
  | Ok v' => Ok (mk v')
  | Raise (ValueError msg) =>
      Raise (ValidationError "BulkURLShortenRequest" [("urls", msg)])
  | Raise e => Raise e
  end.

End BulkURLShortenRequest.

(** ** The persisted entity *)

Module URLShortenResponse.

(** One document of the [url_mappings] collection, which is also the
    response model of the single-URL endpoints. *)
Record t : Type := mk {
  id : string;
  original_url : string;
  short_code : string;
  short_url : string;
  custom : bool;
  created_at : Z;
  click_count : Z
}.

Definition set_click_count (n : Z) (d : t) : t :=
  mk (id d) (original_url d) (short_code d) (short_url d) (custom d)
     (created_at d) n.

End URLShortenResponse.

Abbreviation URLMapping := URLShortenResponse.t.
Import URLShortenResponse.

Module BulkURLShortenResponse.

Record t : Type := mk {
  results : list URLMapping;
  total_processed : Z;
  errors : list string
}.

End BulkURLShortenResponse.

Record RedirectResponse : Type := mkRedirect {
  redirect_url : string;
  redirect_status : Z
}.

(** ** World and environment *)

(** What the process does not control: the outcomes of [random.choice]'s
    draws, of [os.urandom(16)] and of [datetime.utcnow()], indexed by how
    many were taken before; whether the n-th call to the store fails, and
    with which message; the [BACKEND_URL] variable; and how the installed
    libraries render their own exception classes with [str]. *)
Record Env : Type := mkEnv {
  randbelow : nat -> nat;
  urandom : nat -> Z;
  utcnow : nat -> Z;
  fault_at : nat -> option string;
  BACKEND_URL : option string;
  lib_str : exn -> string
}.

Record World : Type := mkWorld {
  store : list URLMapping;      (* db.url_mappings, in insertion order *)
  rand_pos : nat;
  urandom_pos : nat;
  clock_pos : nat;
  calls : nat                   (* store round-trips so far *)
}.

Definition M (A : Type) : Type := World -> Result A * World.

Definition ret {A} (a : A) : M A := fun w => (Ok a, w).

Definition raise {A} (e : exn) : M A := fun w => (Raise e, w).

Definition bind {A B} (m : M A) (k : A -> M B) : M B :=
  fun w =>
    match m w with
    | (Ok a, w') => k a w'
    | (Raise e, w') => (Raise e, w')
    end.

(** [try: body  except Exception as e: handler(e)] *)
Definition try_except {A} (body : M A) (handler : exn -> M A) : M A :=
  fun w =>
    match body w with
    | (Ok a, w') => (Ok a, w')
    | (Raise e, w') => handler e w'
    end.

Definition lift {A} (r : Result A) : M A := fun w => (r, w).

Declare Scope svc_scope.
Delimit Scope svc_scope with svc.
Notation "x <- m ;; k" := (bind m (fun x => k))
  (at level 61, m at next level, right associativity) : svc_scope.
Notation "m ;;; k" := (bind m (fun _ => k))
  (at level 61, right associativity) : svc_scope.
Local Open Scope svc_scope.

(** ** UUIDs (the [uuid] module) *)

Module UUID.

Definition hex_digit (d : Z) : ascii :=
  PyStr.index (Z.to_nat d) "0123456789abcdef".

(** ['%0nx' % x] for [0 <= x < 16^n] *)
Fixpoint hex_of (n : nat) (x : Z) : string :=
  match n with
  | O => EmptyString
  | S k =>
      String (hex_digit (Z.land (Z.shiftr x (4 * Z.of_nat k)) 15)) (hex_of k x)
  end.

(** [UUID(bytes=b, version=4).int], from the integer value of [b] *)
Definition v4_of_int (r : Z) : Z :=
  let i := Z.land r (Z.lnot (Z.shiftl 49152 48)) in
  let i := Z.lor i (Z.shiftl 32768 48) in
  let i := Z.land i (Z.lnot (Z.shiftl 61440 64)) in
  Z.lor i (Z.shiftl 4 76).

(** [str(u)]: the 8-4-4-4-12 form *)
Definition str (u : Z) : string :=
  let hex := hex_of 32 u in
  substring 0 8 hex ++ "-" ++ substring 8 4 hex ++ "-" ++ substring 12 4 hex
    ++ "-" ++ substring 16 4 hex ++ "-" ++ substring 20 12 hex.

End UUID.

Section Service.

Variable env : Env.

(** ** Oracles *)

(** [random.choice(seq)] on a non-empty [seq] *)
Definition random_choice (seq : string) : M ascii :=
  fun w =>
    (Ok (PyStr.index (randbelow env (rand_pos w) mod String.length seq) seq),
     mkWorld (store w) (S (rand_pos w)) (urandom_pos w) (clock_pos w) (calls w)).

(** [uuid.uuid4()] *)
Definition uuid4 : M Z :=
  fun w =>
    (Ok (UUID.v4_of_int (urandom env (urandom_pos w) mod 2 ^ 128)),
     mkWorld (store w) (rand_pos w) (S (urandom_pos w)) (clock_pos w) (calls w)).

(** [datetime.utcnow()] *)
Definition datetime_utcnow : M Z :=
  fun w =>
    (Ok (utcnow env (clock_pos w)),
     mkWorld (store w) (rand_pos w) (urandom_pos w) (S (clock_pos w)) (calls w)).

(** [str(e)] *)
Definition str_exn (e : exn) : string :=
  match e with
  | ValueError msg => msg
  | PyMongoError msg => msg
  | _ => lib_str env e
  end.

(** ** The document store

    One awaited call is one round-trip: it fails as a whole with the
    environment's fault, or runs [op] on the collection. *)
Definition store_call {A} (op : list URLMapping -> A * list URLMapping) : M A :=
  fun w =>
    match fault_at env (calls w) with
    | Some msg =>
        (Raise (PyMongoError msg),
         mkWorld (store w) (rand_pos w) (urandom_pos w) (clock_pos w)
                 (S (calls w)))
    | None =>
        let (a, st) := op (store w) in
        (Ok a,
         mkWorld st (rand_pos w) (urandom_pos w) (clock_pos w) (S (calls w)))
    end.

Definition has_code (code : string) (d : URLMapping) : bool :=
  String.eqb (short_code d) code.

(** [find_one({"short_code": code})] *)
Definition find_one (code : string) : M (option URLMapping) :=
  store_call (fun st => (List.find (has_code code) st, st)).

(** [insert_one(doc)] *)
Definition insert_one (doc : URLMapping) : M unit :=
  store_call (fun st => (tt, (st ++ [doc])%list)).

(** What [update_one({"short_code": code}, {"$inc": {"click_count": 1}})]
    does to the collection: the first matching document, if any. *)
Fixpoint inc_first (code : string) (st : list URLMapping) : list URLMapping :=
  match st with
  | [] => []
  | d :: rest =>
      if has_code code d then set_click_count (click_count d + 1) d :: rest
      else d :: inc_first code rest
  end.

Definition update_one_inc (code : string) : M unit :=
  store_call (fun st => (tt, inc_first code st)).

(** [sort("created_at", -1)] *)
Fixpoint insert_desc (d : URLMapping) (l : list URLMapping) : list URLMapping :=
  match l with
  | [] => [d]
  | x :: rest =>
      if created_at x <=? created_at d then d :: l
      else x :: insert_desc d rest
  end.

Fixpoint sort_desc (l : list URLMapping) : list URLMapping :=
  match l with
  | [] => []
  | d :: rest => insert_desc d (sort_desc rest)
  end.

(** [find().sort("created_at", -1).limit(limit).to_list(limit)]: building
    the cursor does no I/O; [to_list] refuses a negative length before
    any round-trip and otherwise returns at most [limit] documents. *)
Definition find_sorted_to_list (limit : Z) : M (list URLMapping) :=
  if limit <? 0 then raise (ValueError "length must be non-negative")
  else store_call (fun st => (firstn (Z.to_nat limit) (sort_desc st), st)).

(** ** Short codes *)

Definition ascii_letters : string :=
  "abcdefghijklmnopqrstuvwxyzABCDEFGHIJKLMNOPQRSTUVWXYZ".
Definition digits : string := "0123456789".

(** [generate_short_code(length)]: [length] draws from
    [string.ascii_letters + string.digits], joined in order. *)
Fixpoint generate_short_code (length : nat) : M string :=
  match length with
  | O => ret EmptyString
  | S k =>
      c <- random_choice (ascii_letters ++ digits) ;;
      s <- generate_short_code k ;;
      ret (String c s)
  end.

Definition check_code_exists (code : string) : M bool :=
  existing <- find_one code ;;
  ret (match existing with Some _ => true | None => false end).

(** [create_unique_short_code(length, max_attempts)]: the [for] loop over
    [range(max_attempts)], then the statement after it. *)
Fixpoint create_unique_short_code (length max_attempts : nat) : M string :=
  match max_attempts with
  | S k =>
      code <- generate_short_code length ;;
      taken <- check_code_exists code ;;
      if negb taken then ret code
      else create_unique_short_code length k
  | O =>
      u <- uuid4 ;;
      ret (PyStr.slice_to length (UUID.str u))
  end.

(** The defaults of [create_unique_short_code] *)
Definition default_length : nat := 8.
Definition default_max_attempts : nat := 10.

(** ** Handlers *)

(** [os.environ.get('BACKEND_URL', 'http://localhost:8001')] *)
Definition backend_url : string :=
  match BACKEND_URL env with
  | Some u => u
  | None => "http://localhost:8001"
  end.

Definition short_url_of (code : string) : string :=
  backend_url ++ "/api/r/" ++ code.

(** [URLShortenResponse(original_url=.., short_code=.., short_url=..,
    custom=..)]: the defaults fill [id] and [created_at], in field order,
    and [click_count]. *)
Definition new_mapping (original short short_u : string) (is_custom : bool)
  : M URLMapping :=
  u <- uuid4 ;;
  now <- datetime_utcnow ;;
  ret (URLShortenResponse.mk (UUID.str u) original short short_u is_custom now 0).

(** [if request.custom_code:] is false for [None] and for the empty string. *)
Definition truthy (c : option string) : option string :=
  match c with
  | Some EmptyString => None
  | c => c
  end.

Definition internal_error {A} : M A :=
  raise (HTTPException 500 "Internal server error").

(** The [if request.custom_code: ... else: ...] of [shorten_url]: the
    short code to use and whether it is the caller's. *)
Definition choose_code (request : URLShortenRequest.t) : M (string * bool) :=
  match truthy (URLShortenRequest.custom_code request) with
  | Some alias =>
      taken <- check_code_exists alias ;;
      if taken then
        raise (HTTPException 400
                 ("Custom code '" ++ alias ++ "' is already taken"))
      else ret (alias, true)
  | None =>
      code <- create_unique_short_code default_length default_max_attempts ;;
      ret (code, false)
  end.

Definition shorten_url (request : URLShortenRequest.t) : M URLMapping :=
  try_except
    (choice <- choose_code request ;;
     url_mapping <- new_mapping (URLShortenRequest.url request) (fst choice)
                      (short_url_of (fst choice)) (snd choice) ;;
     insert_one url_mapping ;;;
     ret url_mapping)
    (fun e =>
       if is_ValueError e then raise (HTTPException 400 (str_exn e))
       else internal_error).

(** The body of the [try] in the loop of [shorten_urls_bulk] *)
Definition bulk_entry (url : string) : M URLMapping :=
  url_request <- lift (URLShortenRequest.new (PyStr.strip url) None) ;;
  code <- create_unique_short_code default_length default_max_attempts ;;
  url_mapping <- new_mapping (URLShortenRequest.url url_request) code
                   (short_url_of code) false ;;
  insert_one url_mapping ;;;
  ret url_mapping.

(** [f"URL {idx + 1} ({url}): {str(e)}"] *)
Definition error_line (idx : nat) (url : string) (e : exn) : string :=
  "URL " ++ PyStr.of_nat (idx + 1) ++ " (" ++ url ++ "): " ++ str_exn e.

(** The [for idx, url in enumerate(request.urls)] loop, from index [idx]
    on, with the two accumulators. *)
Fixpoint bulk_loop (idx : nat) (urls : list string)
    (acc : list URLMapping * list string)
  : M (list URLMapping * list string) :=
  match urls with
  | [] => ret acc
  | url :: rest =>
      acc' <- try_except
                (url_mapping <- bulk_entry url ;;
                 ret ((fst acc ++ [url_mapping])%list, snd acc))
                (fun e => ret (fst acc, (snd acc ++ [error_line idx url e])%list)) ;;
      bulk_loop (S idx) rest acc'
  end.

Definition shorten_urls_bulk (request : BulkURLShortenRequest.t)
  : M BulkURLShortenResponse.t :=
  acc <- bulk_loop 0 (BulkURLShortenRequest.urls request) ([], []) ;;
  ret (BulkURLShortenResponse.mk (fst acc) (Z.of_nat (List.length (fst acc)))
                                 (snd acc)).

Definition get_urls (limit : Z) : M (list URLMapping) :=
  try_except
    (url_mappings <- find_sorted_to_list limit ;;
     ret url_mappings)
    (fun _ => internal_error).

Definition default_limit : Z := 50.

Definition redirect_to_url (code : string) : M RedirectResponse :=
  try_except
    (url_mapping <- find_one code ;;
     match url_mapping with
     | None => raise (HTTPException 404 "Short URL not found")
     | Some d =>
         update_one_inc code ;;;
         ret (mkRedirect (original_url d) 302)
     end)
    (fun e => if is_HTTPException e then raise e else internal_error).

(** ** Endpoints

    The framework builds the request model from the body before it calls
    the handler; when the model's validators refuse the body, the handler
    does not run and the validation error is the outcome. *)
Definition post_shorten (u : string) (c : option string) : M URLMapping :=
  request <- lift (URLShortenRequest.new u c) ;;
  shorten_url request.

Definition post_shorten_bulk (urls : list string) : M BulkURLShortenResponse.t :=
  request <- lift (BulkURLShortenRequest.new urls) ;;
  shorten_urls_bulk request.

End Service.

(** ** Vocabulary of the properties *)

(** The store answers every call. *)
Definition healthy (env : Env) : Prop := forall n, fault_at env n = None.

(** A computation that leaves the collection as it found it. *)
Definition reads_only {A} (m : M A) : Prop :=
  forall w, store (snd (m w)) = store w.

(** The batch, entry by entry: from index [idx] and world [w], the entries
    [urls] are each run on the world the previous one left; an entry that
    returns contributes its record, one that raises [e] contributes the line
    "URL", its 1-based position, the entry as received in parentheses, a
    colon and [str(e)], and the run goes on to the next entry either way. *)
Inductive bulk_run (env : Env)
  : nat -> list string -> World -> list URLMapping -> list string -> World -> Prop :=
| bulk_run_done idx w :
    bulk_run env idx [] w [] [] w
| bulk_run_created idx url rest w m w1 rs es w2 :
    bulk_entry env url w = (Ok m, w1) ->
    bulk_run env (S idx) rest w1 rs es w2 ->
    bulk_run env idx (url :: rest) w (m :: rs) es w2
| bulk_run_failed idx url rest w e w1 rs es w2 :
    bulk_entry env url w = (Raise e, w1) ->
    bulk_run env (S idx) rest w1 rs es w2 ->
    bulk_run env idx (url :: rest) w rs
      (("URL " ++ PyStr.of_nat (idx + 1) ++ " (" ++ url ++ "): "
          ++ str_exn env e)%string :: es) w2.

(** The shape asked of an alias: 3 to 20 characters of [A-Za-z0-9_-]. *)
Definition is_code_char (c : ascii) : bool :=
  PyStr.is_alnum c || Ascii.eqb c "_" || Ascii.eqb c "-".

Definition alias_shape (s : string) : bool :=
  ((3 <=? String.length s) && (String.length s <=? 20))%nat
  && PyStr.all is_code_char s.

(** Newest first. *)
Definition newer_first (a b : URLMapping) : Prop := created_at b <= created_at a.

(** ** Concrete environments *)

(** Every draw is 0, the clock counts its readings, the store answers. *)
Definition quiet_env : Env :=
  mkEnv (fun _ => 0%nat) (fun _ => 0) (fun n => Z.of_nat n) (fun _ => None) None
        (fun _ => EmptyString).

(** As [quiet_env], with a store whose second call fails. *)
Definition flaky_env : Env :=
  mkEnv (fun _ => 0%nat) (fun _ => 0) (fun n => Z.of_nat n)
        (fun n => if (n =? 1)%nat then Some "connection reset" else None) None
        (fun _ => EmptyString).

Definition empty_world : World := mkWorld [] 0 0 0 0.

Definition world_of (st : list URLMapping) : World := mkWorld st 0 0 0 0.

(** A caller's record for [url] under the alias [code], created at [t]. *)
Definition alias_doc (code url : string) (t : Z) : URLMapping :=
  URLShortenResponse.mk "6f1c2a4e-0b7d-4c1a-9e55-3d2f8a9b0c11" url code
    ("http://localhost:8001/api/r/" ++ code) true t 0.

(** A world holding one aliased record with three clicks. *)
Definition promo_doc : URLMapping :=
  URLShortenResponse.mk "6f1c2a4e-0b7d-4c1a-9e55-3d2f8a9b0c11"
    "https://example.com/sale" "promo" "http://localhost:8001/api/r/promo"
    true 1700000000 3.

Definition promo_world : World := world_of [promo_doc].

(** Ten records, created at ten different instants, in no particular order. *)
Definition ten_docs : list URLMapping :=
  map (fun t => alias_doc ("code" ++ PyStr.of_nat (Z.to_nat t))
                          "https://example.com" t)
      [3; 9; 1; 7; 10; 2; 8; 5; 4; 6].

(** Two aliased records whose codes are what [quiet_env] makes the
    generator and the identifier fallback produce. *)
Definition crowded_world : World :=
  world_of [alias_doc "aaaaaaaa" "https://a.example.com" 1;
            alias_doc "00000000" "https://b.example.com" 2].

(** Three valid characters and a line feed. *)
Definition newline_alias : string :=
  String "a" (String "b" (String "c" (String "010" EmptyString))).

Definition is_hex (c : ascii) : bool :=
  PyStr.is_digit c || PyStr.in_range "a" "f" c.

(** ** Vocabulary of the further properties *)

(** Every code point 0..255. *)
Definition all_ascii : list ascii := map ascii_of_nat (seq 0 256).

(** Every character class of the pattern [r] lies within [q]. *)
Fixpoint classes_within (q : ascii -> bool) (r : Re.re) : bool :=
  match r with
  | Re.Cls p => forallb (fun c => implb (p c) (q c)) all_ascii
  | Re.Cat a b | Re.Alt a b => classes_within q a && classes_within q b
  | Re.Star a => classes_within q a
  | Re.Void | Re.Eps => true
  end.

Definition no_space (c : ascii) : bool := negb (PyStr.is_space c).

(** A single line feed. *)
Definition LF : string := String "010" EmptyString.

(** The short codes of a collection, in its order. *)
Definition codes (st : list URLMapping) : list string := map short_code st.

(** Two documents that differ at most by one more click in the second. *)
Definition same_but_clicks (d d' : URLMapping) : Prop :=
  id d' = id d /\ original_url d' = original_url d
  /\ short_code d' = short_code d /\ short_url d' = short_url d
  /\ custom d' = custom d /\ created_at d' = created_at d
  /\ click_count d <= click_count d' <= click_count d + 1.

(** What the endpoints keep true of every stored document: the URL has
    its scheme, the clicks are not negative. *)
Definition well_formed (d : URLMapping) : Prop :=
  URLShortenRequest.has_scheme (original_url d) = true /\ 0 <= click_count d.

(** The error every entry that fails URL validation is recorded with. *)
Definition invalid_url_error : exn :=
  ValidationError "URLShortenRequest" [("url", "Invalid URL format")].

(** The lines of a batch in which every entry fails validation. *)
Fixpoint invalid_lines (env : Env) (idx : nat) (urls : list string) : list string :=
  match urls with
  | [] => []
  | url :: rest =>
      error_line env idx url invalid_url_error :: invalid_lines env (S idx) rest
  end.

(** ** The smoke-test client (backend_test.py) *)

Module URLShortenerTester.

(** [self.api_url], set in [__init__] *)
Definition api_url (base_url : string) : string := base_url ++ "/api".

(** The address [run_test] builds for [endpoint]. *)
Definition request_url (base_url endpoint : string) : string :=
  if PyStr.startswith "/api" endpoint then base_url ++ endpoint
  else if PyStr.startswith "/" endpoint then base_url ++ endpoint
  else api_url base_url ++ "/" ++ endpoint.

(** The endpoint [test_redirect] asks for. *)
Definition redirect_endpoint (short_code : string) : string :=
  "/api/r/" ++ short_code.

End URLShortenerTester.

(** ** Reasoning principles for the monad *)

Lemma bind_ok {A B} (m : M A) (k : A -> M B) w a w1 :
  m w = (Ok a, w1) -> bind m k w = k a w1.
Proof. intros H. unfold bind. rewrite H. reflexivity. Qed.

Lemma bind_raise {A B} (m : M A) (k : A -> M B) w e w1 :
  m w = (Raise e, w1) -> bind m k w = (Raise e, w1).
Proof. intros H. unfold bind. rewrite H. reflexivity. Qed.

Lemma try_ok {A} (m : M A) h w a w1 :
  m w = (Ok a, w1) -> try_except m h w = (Ok a, w1).
Proof. intros H. unfold try_except. rewrite H. reflexivity. Qed.

Lemma try_raise {A} (m : M A) h w e w1 :
  m w = (Raise e, w1) -> try_except m h w = h e w1.
Proof. intros H. unfold try_except. rewrite H. reflexivity. Qed.

Lemma reads_only_bind {A B} (m : M A) (k : A -> M B) :
  reads_only m -> (forall a, reads_only (k a)) -> reads_only (bind m k).
Proof.
  intros Hm Hk w. unfold bind. specialize (Hm w).
  destruct (m w) as [[a | e] w1]; simpl in *.
  - rewrite Hk. exact Hm.
  - exact Hm.
Qed.

Lemma reads_only_try {A} (m : M A) (h : exn -> M A) :
  reads_only m -> (forall e, reads_only (h e)) -> reads_only (try_except m h).
Proof.
  intros Hm Hh w. unfold try_except. specialize (Hm w).
  destruct (m w) as [[a | e] w1]; simpl in *.
  - exact Hm.
  - rewrite Hh. exact Hm.
Qed.

Lemma reads_only_ret {A} (a : A) : reads_only (ret a).
Proof. intros w. reflexivity. Qed.

Lemma reads_only_raise {A} e : reads_only (@raise A e).
Proof. intros w. reflexivity. Qed.

Lemma reads_only_lift {A} (r : Result A) : reads_only (lift r).
Proof. intros w. reflexivity. Qed.

Section ServiceFacts.

Variable env : Env.

Lemma reads_only_store_call {A} (f : list URLMapping -> A) :
  reads_only (store_call env (fun st => (f st, st))).
Proof.
  intros w. unfold store_call. destruct (fault_at env (calls w)); reflexivity.
Qed.

Lemma store_call_healthy {A} (op : list URLMapping -> A * list URLMapping) w :
  healthy env ->
  store_call env op w =
    (Ok (fst (op (store w))),
     mkWorld (snd (op (store w))) (rand_pos w) (urandom_pos w) (clock_pos w)
             (S (calls w))).
Proof.
  intros H. unfold store_call. rewrite H. destruct (op (store w)); reflexivity.
Qed.

Lemma reads_only_random_choice seq : reads_only (random_choice env seq).
Proof. intros w. reflexivity. Qed.

Lemma reads_only_uuid4 : reads_only (uuid4 env).
Proof. intros w. reflexivity. Qed.

Lemma reads_only_generate n : reads_only (generate_short_code env n).
Proof.
  induction n as [| n IH]; simpl.
  - apply reads_only_ret.
  - apply reads_only_bind; [apply reads_only_random_choice |].
    intros c. apply reads_only_bind; [exact IH |].
    intros s. apply reads_only_ret.
Qed.

Lemma reads_only_check_code_exists code : reads_only (check_code_exists env code).
Proof.
  unfold check_code_exists. apply reads_only_bind.
  - apply (reads_only_store_call (List.find (has_code code))).
  - intros a. apply reads_only_ret.
Qed.

Lemma reads_only_create_unique len n :
  reads_only (create_unique_short_code env len n).
Proof.
  induction n as [| n IH]; simpl.
  - apply reads_only_bind; [apply reads_only_uuid4 |].
    intros u. apply reads_only_ret.
  - apply reads_only_bind; [apply reads_only_generate |].
    intros code. apply reads_only_bind; [apply reads_only_check_code_exists |].
    intros [|]; simpl; [exact IH | apply reads_only_ret].
Qed.

Lemma reads_only_new_mapping o s su c : reads_only (new_mapping env o s su c).
Proof. intros w. reflexivity. Qed.

(** Code generation always returns. *)
Lemma generate_short_code_returns n w :
  exists s w', generate_short_code env n w = (Ok s, w').
Proof.
  revert w. induction n as [| n IH]; intros w; simpl.
  - eexists _, _. reflexivity.
  - erewrite bind_ok by (unfold random_choice; reflexivity).
    match goal with |- context [bind (generate_short_code env n) _ ?w1] =>
      destruct (IH w1) as (s & w2 & E) end.
    erewrite bind_ok by exact E. eexists _, _. reflexivity.
Qed.

Lemma check_code_exists_healthy code w :
  healthy env ->
  check_code_exists env code w =
    (Ok (match List.find (has_code code) (store w) with
         | Some _ => true
         | None => false
         end),
     mkWorld (store w) (rand_pos w) (urandom_pos w) (clock_pos w) (S (calls w))).
Proof.
  intros H. unfold check_code_exists, find_one.
  erewrite bind_ok by (apply store_call_healthy; exact H). reflexivity.
Qed.

(** With a store that answers, allocation of a generated code returns. *)
Lemma create_unique_returns len n w :
  healthy env ->
  exists code w', create_unique_short_code env len n w = (Ok code, w').
Proof.
  intros H. revert w. induction n as [| n IH]; intros w; simpl.
  - eexists _, _. reflexivity.
  - destruct (generate_short_code_returns len w) as (s & w1 & E1).
    erewrite bind_ok by exact E1.
    erewrite bind_ok by (apply check_code_exists_healthy; exact H).
    destruct (List.find (has_code s) (store w1)); simpl.
    + apply IH.
    + eexists _, _. reflexivity.
Qed.

End ServiceFacts.

(** ** The bulk loop *)

Section BulkFacts.

Variable env : Env.

Lemma insert_one_cases doc w :
  (exists w', insert_one env doc w = (Ok tt, w')
              /\ store w' = (store w ++ [doc])%list)
  \/ (exists e w', insert_one env doc w = (Raise e, w') /\ store w' = store w).
Proof.
  unfold insert_one, store_call. destruct (fault_at env (calls w)).
  - right. eexists _, _. split; reflexivity.
  - left. eexists. split; reflexivity.
Qed.

(** An entry either appends exactly its record or leaves the collection. *)
Lemma bulk_entry_store url w :
  match bulk_entry env url w with
  | (Ok m, w') => store w' = (store w ++ [m])%list
  | (Raise _, w') => store w' = store w
  end.
Proof.
  unfold bulk_entry.
  destruct (URLShortenRequest.new (PyStr.strip url) None) as [req | e].
  2: { erewrite bind_raise by reflexivity. reflexivity. }
  erewrite bind_ok by reflexivity.
  pose proof (reads_only_create_unique env default_length default_max_attempts w) as Hc.
  destruct (create_unique_short_code env default_length default_max_attempts w)
    as [[code | e] w1] eqn:Ec; simpl in Hc.
  2: { erewrite bind_raise by exact Ec. exact Hc. }
  erewrite bind_ok by exact Ec.
  erewrite bind_ok by reflexivity.
  match goal with |- context [bind (insert_one env ?d) _ ?w2] =>
    destruct (insert_one_cases d w2) as [(w3 & Ei & Hs) | (e & w3 & Ei & Hs)]
  end.
  - erewrite bind_ok by exact Ei. simpl. rewrite Hs. simpl. rewrite Hc.
    reflexivity.
  - erewrite bind_raise by exact Ei. rewrite Hs. simpl. exact Hc.
Qed.

Lemma bulk_loop_created idx url rest acc w m w1 :
  bulk_entry env url w = (Ok m, w1) ->
  bulk_loop env idx (url :: rest) acc w =
    bulk_loop env (S idx) rest ((fst acc ++ [m])%list, snd acc) w1.
Proof.
  intros E. simpl. erewrite bind_ok; [reflexivity |].
  apply try_ok. erewrite bind_ok by exact E. reflexivity.
Qed.

Lemma bulk_loop_failed idx url rest acc w e w1 :
  bulk_entry env url w = (Raise e, w1) ->
  bulk_loop env idx (url :: rest) acc w =
    bulk_loop env (S idx) rest
      (fst acc, (snd acc ++ [error_line env idx url e])%list) w1.
Proof.
  intros E. simpl. erewrite bind_ok; [reflexivity |].
  erewrite try_raise; [reflexivity |].
  erewrite bind_raise by exact E. reflexivity.
Qed.

(** The loop with its accumulators computes the entry-by-entry run. *)
Lemma bulk_loop_run urls : forall idx acc w,
  exists rs es w',
    bulk_loop env idx urls acc w
      = (Ok ((fst acc ++ rs)%list, (snd acc ++ es)%list), w')
    /\ bulk_run env idx urls w rs es w'.
Proof.
  induction urls as [| url rest IH]; intros idx [racc eacc] w.
  - exists [], [], w. simpl. rewrite !app_nil_r. split; [reflexivity | constructor].
  - destruct (bulk_entry env url w) as [[m | e] w1] eqn:E.
    + rewrite (bulk_loop_created idx url rest _ w m w1 E).
      destruct (IH (S idx) ((racc ++ [m])%list, eacc) w1) as (rs & es & w' & El & Hr).
      exists (m :: rs), es, w'. simpl in *. rewrite El, <- app_assoc. simpl.
      split; [reflexivity |]. econstructor; eassumption.
    + rewrite (bulk_loop_failed idx url rest _ w e w1 E).
      destruct (IH (S idx) (racc, (eacc ++ [error_line env idx url e])%list) w1)
        as (rs & es & w' & El & Hr).
      exists rs, (error_line env idx url e :: es), w'.
      cbn [fst snd] in *. rewrite El, <- app_assoc. cbn [app].
      split; [reflexivity |].
      exact (bulk_run_failed env idx url rest w e w1 rs es w' E Hr).
Qed.

Lemma bulk_run_store idx urls w rs es w' :
  bulk_run env idx urls w rs es w' -> store w' = (store w ++ rs)%list.
Proof.
  induction 1 as [idx w | idx url rest w m w1 rs es w2 E _ IH
                 | idx url rest w e w1 rs es w2 E _ IH].
  - rewrite app_nil_r. reflexivity.
  - pose proof (bulk_entry_store url w) as Hs. rewrite E in Hs.
    rewrite IH, Hs, <- app_assoc. reflexivity.
  - pose proof (bulk_entry_store url w) as Hs. rewrite E in Hs.
    rewrite IH, Hs. reflexivity.
Qed.

Lemma bulk_run_length idx urls w rs es w' :
  bulk_run env idx urls w rs es w' ->
  (List.length rs + List.length es = List.length urls)%nat.
Proof. induction 1; simpl; lia. Qed.

(** Every error line is the line of an entry that raised: it names the
    entry's 1-based position and raw text and ends with the text of the
    exception that the entry raised. *)
Lemma bulk_run_lines idx urls w rs es w' :
  bulk_run env idx urls w rs es w' ->
  forall line, In line es ->
  exists i url e wi wi',
    nth_error urls i = Some url
    /\ bulk_entry env url wi = (Raise e, wi')
    /\ line = "URL " ++ PyStr.of_nat (idx + i + 1) ++ " (" ++ url ++ "): "
               ++ str_exn env e.
Proof.
  induction 1 as [idx w | idx url rest w m w1 rs es w2 E _ IH
                 | idx url rest w e w1 rs es w2 E _ IH]; intros line Hin.
  - destruct Hin.
  - destruct (IH line Hin) as (i & u & e & wi & wi' & Hn & He & Hl).
    exists (S i), u, e, wi, wi'. split; [exact Hn |]. split; [exact He |].
    rewrite Hl. replace (S idx + i + 1)%nat with (idx + S i + 1)%nat by lia.
    reflexivity.
  - destruct Hin as [<- | Hin].
    + exists 0%nat, url, e, w, w1. split; [reflexivity |]. split; [exact E |].
      rewrite Nat.add_0_r. reflexivity.
    + destruct (IH line Hin) as (i & u & e' & wi & wi' & Hn & He & Hl).
      exists (S i), u, e', wi, wi'. split; [exact Hn |]. split; [exact He |].
      rewrite Hl. replace (S idx + i + 1)%nat with (idx + S i + 1)%nat by lia.
      reflexivity.
Qed.

Lemma shorten_urls_bulk_run request w :
  exists rs es w',
    shorten_urls_bulk env request w
      = (Ok (BulkURLShortenResponse.mk rs (Z.of_nat (List.length rs)) es), w')
    /\ bulk_run env 0 (BulkURLShortenRequest.urls request) w rs es w'.
Proof.
  destruct (bulk_loop_run (BulkURLShortenRequest.urls request) 0 ([], []) w)
    as (rs & es & w' & El & Hr).
  exists rs, es, w'. split; [| exact Hr].
  unfold shorten_urls_bulk. erewrite bind_ok by exact El. reflexivity.
Qed.

Lemma bulk_entries_run_total request w :
  exists rs es w',
    shorten_urls_bulk env request w
      = (Ok (BulkURLShortenResponse.mk rs (Z.of_nat (List.length rs)) es), w')
    /\ (List.length rs + List.length es
        = List.length (BulkURLShortenRequest.urls request))%nat.
Proof.
  destruct (shorten_urls_bulk_run request w) as (rs & es & w' & E & Hr).
  exists rs, es, w'. split; [exact E |]. eapply bulk_run_length; exact Hr.
Qed.

End BulkFacts.

(** ** Bulk shortening *)

(** C4.  The bulk handler returns for every request and world.  Its
    response is the entry-by-entry run of the batch in input order: every
    entry is run on the world the previous one left, whether that one
    failed or not; an entry that raises [e] adds exactly the line "URL ",
    its 1-based position, " (", the entry as received, "): " and [str(e)];
    the created records are returned in input order, they are exactly what
    the collection gained, and [total_processed] counts them.  In
    particular every error line is the line of an entry of the request
    that raised, with that entry's position, text and exception; and when
    the first entry raises, its line is the first error and the rest of
    the batch is run all the same. *)
Theorem bulk_entries_processed_in_order env request w :
  exists resp w',
    shorten_urls_bulk env request w = (Ok resp, w')
    /\ bulk_run env 0 (BulkURLShortenRequest.urls request) w
         (BulkURLShortenResponse.results resp)
         (BulkURLShortenResponse.errors resp) w'
    /\ BulkURLShortenResponse.total_processed resp
       = Z.of_nat (List.length (BulkURLShortenResponse.results resp))
    /\ store w' = (store w ++ BulkURLShortenResponse.results resp)%list
    /\ (List.length (BulkURLShortenResponse.results resp)
        + List.length (BulkURLShortenResponse.errors resp)
        = List.length (BulkURLShortenRequest.urls request))%nat
    /\ (forall line, In line (BulkURLShortenResponse.errors resp) ->
        exists i url e wi wi',
          nth_error (BulkURLShortenRequest.urls request) i = Some url
          /\ bulk_entry env url wi = (Raise e, wi')
          /\ line = "URL " ++ PyStr.of_nat (i + 1) ++ " (" ++ url ++ "): "
                     ++ str_exn env e)
    /\ (forall url rest e w1,
        BulkURLShortenRequest.urls request = url :: rest ->
        bulk_entry env url w = (Raise e, w1) ->
        exists more,
          BulkURLShortenResponse.errors resp
          = ("URL 1 (" ++ url ++ "): " ++ str_exn env e)%string :: more
          /\ bulk_run env 1 rest w1 (BulkURLShortenResponse.results resp) more w').
Proof.
  destruct (shorten_urls_bulk_run env request w) as (rs & es & w' & E & Hr).
  exists (BulkURLShortenResponse.mk rs (Z.of_nat (List.length rs)) es), w'.
  cbn [BulkURLShortenResponse.results BulkURLShortenResponse.errors
       BulkURLShortenResponse.total_processed].
  split; [exact E |]. split; [exact Hr |]. split; [reflexivity |].
  split; [eapply bulk_run_store; exact Hr |].
  split; [eapply bulk_run_length; exact Hr |]. split.
  - intros line Hin. exact (bulk_run_lines env _ _ _ _ _ _ Hr line Hin).
  - intros url rest e w1 Hurls He. rewrite Hurls in Hr.
    inversion Hr as [| ? ? ? ? m w1' rs' es' ? E' Hrest
                     | ? ? ? ? e' w1' rs' es' ? E' Hrest]; subst.
    + rewrite He in E'. discriminate E'.
    + rewrite He in E'. injection E' as <- <-.
      eexists. split; [reflexivity | exact Hrest].
Qed.

(** The batch of the specification's example: one bad entry between two
    good ones. *)
Example bulk_mixed_batch :
  exists m1 m2 w',
    post_shorten_bulk quiet_env ["  example.com "; "bad url"; "localhost"] empty_world
      = (Ok (BulkURLShortenResponse.mk [m1; m2] 2 ["URL 2 (bad url): "]), w')
    /\ original_url m1 = "https://example.com"
    /\ original_url m2 = "https://localhost"
    /\ store w' = [m1; m2].
Proof. eexists _, _, _. vm_compute. repeat split. Qed.

(** C10.  Whatever exception an entry raises, a store failure as much as a
    validation error, the loop records the entry's line with [str(e)] and
    goes on with the rest; a batch of that one entry answers with that one
    line; and the bulk handler returns a response, never an exception, for
    every request and every schedule of store faults. *)
Theorem bulk_records_every_exception env idx url rest acc w e w1
    (Hraise : bulk_entry env url w = (Raise e, w1)) :
  bulk_loop env idx (url :: rest) acc w
    = bulk_loop env (S idx) rest
        (fst acc,
         (snd acc ++ [("URL " ++ PyStr.of_nat (idx + 1) ++ " (" ++ url ++ "): "
                         ++ str_exn env e)%string])%list) w1
  /\ shorten_urls_bulk env (BulkURLShortenRequest.mk [url]) w
     = (Ok (BulkURLShortenResponse.mk []  0
              ["URL 1 (" ++ url ++ "): " ++ str_exn env e]), w1)
  /\ store w1 = store w
  /\ forall request w0, exists resp w',
       shorten_urls_bulk env request w0 = (Ok resp, w').
Proof.
  split; [| split; [| split]].
  - exact (bulk_loop_failed env idx url rest acc w e w1 Hraise).
  - unfold shorten_urls_bulk. simpl BulkURLShortenRequest.urls.
    erewrite bind_ok.
    2: { rewrite (bulk_loop_failed env 0 url [] _ w e w1 Hraise). reflexivity. }
    reflexivity.
  - pose proof (bulk_entry_store env url w) as Hs. rewrite Hraise in Hs. exact Hs.
  - intros request w0.
    destruct (shorten_urls_bulk_run env request w0) as (rs & es & w' & E & _).
    eexists _, _. exact E.
Qed.

(** An insert that the store fails is recorded like any other failure. *)
Lemma bulk_records_every_exception_witness :
  bulk_entry flaky_env "example.com" empty_world
    = (Raise (PyMongoError "connection reset"), mkWorld [] 8 1 1 2)
  /\ shorten_urls_bulk flaky_env (BulkURLShortenRequest.mk ["example.com"]) empty_world
     = (Ok (BulkURLShortenResponse.mk [] 0
              ["URL 1 (example.com): connection reset"]), mkWorld [] 8 1 1 2).
Proof.
  split; [vm_compute; reflexivity |].
  apply (bulk_records_every_exception flaky_env 0 "example.com" [] ([], [])
           empty_world (PyMongoError "connection reset") (mkWorld [] 8 1 1 2)).
  vm_compute. reflexivity.
Defined.

(** C6.  The bulk endpoint refuses a request as a whole exactly when the
    list is empty or longer than 50; a refusal leaves the world as it was;
    and a list of 1 to 50 entries reaches the handler, which answers with
    every entry accounted for. *)
Theorem bulk_rejected_iff_empty_or_over_cap env urls w :
  ((exists e w', post_shorten_bulk env urls w = (Raise e, w'))
   <-> (List.length urls = 0 \/ 50 < List.length urls)%nat)
  /\ (forall e w', post_shorten_bulk env urls w = (Raise e, w') -> w' = w)
  /\ ((1 <= List.length urls <= 50)%nat ->
      BulkURLShortenRequest.validate_urls urls = Ok urls
      /\ exists resp w',
           post_shorten_bulk env urls w = (Ok resp, w')
           /\ (List.length (BulkURLShortenResponse.results resp)
               + List.length (BulkURLShortenResponse.errors resp)
               = List.length urls)%nat).
Proof.
  unfold post_shorten_bulk, BulkURLShortenRequest.new,
    BulkURLShortenRequest.validate_urls.
  destruct (50 <? List.length urls)%nat eqn:Hbig.
  { apply Nat.ltb_lt in Hbig. erewrite bind_raise by reflexivity.
    split; [| split].
    - split; [intros _; right; exact Hbig | intros _; eexists _, _; reflexivity].
    - intros e w' H. inversion H. reflexivity.
    - intros [_ H]. lia. }
  apply Nat.ltb_ge in Hbig.
  destruct (List.length urls =? 0)%nat eqn:Hzero.
  { apply Nat.eqb_eq in Hzero. erewrite bind_raise by reflexivity.
    split; [| split].
    - split; [intros _; left; exact Hzero | intros _; eexists _, _; reflexivity].
    - intros e w' H. inversion H. reflexivity.
    - intros [H _]. lia. }
  apply Nat.eqb_neq in Hzero.
  erewrite bind_ok by reflexivity.
  destruct (bulk_entries_run_total env (BulkURLShortenRequest.mk urls) w)
    as (rs & es & w' & E & Hlen).
  rewrite E. split; [| split].
  - split; [intros (e & w2 & H); discriminate H | intros [H | H]; lia].
  - intros e w2 H. discriminate H.
  - intros _. split; [reflexivity |]. eexists _, _. split; [reflexivity |].
    exact Hlen.
Qed.

Lemma bulk_rejected_iff_empty_or_over_cap_witness :
  (exists e w', post_shorten_bulk quiet_env [] empty_world = (Raise e, w'))
  /\ (exists e w',
        post_shorten_bulk quiet_env (repeat "https://example.com" 51) empty_world
          = (Raise e, w'))
  /\ exists resp w',
       post_shorten_bulk quiet_env ["example.com"] empty_world = (Ok resp, w').
Proof.
  split; [| split].
  - apply (bulk_rejected_iff_empty_or_over_cap quiet_env [] empty_world).
    left. reflexivity.
  - apply (bulk_rejected_iff_empty_or_over_cap quiet_env
             (repeat "https://example.com" 51) empty_world).
    right. simpl. lia.
  - destruct (bulk_rejected_iff_empty_or_over_cap quiet_env ["example.com"]
                empty_world) as (_ & _ & H).
    destruct H as (_ & resp & w' & E & _); [simpl; lia |].
    exists resp, w'. exact E.
Defined.

(** ** URL normalization *)

Lemma has_scheme_https v : URLShortenRequest.has_scheme ("https://" ++ v) = true.
Proof.
  unfold URLShortenRequest.has_scheme, PyStr.startswith.
  apply orb_true_iff. right. simpl. destruct v; reflexivity.
Qed.

Lemma validate_url_cases v v' :
  URLShortenRequest.validate_url v = Ok v' ->
  v' = (if URLShortenRequest.has_scheme v then v else "https://" ++ v)
  /\ Re.match_to_dollar URLShortenRequest.url_pattern v' = true.
Proof.
  unfold URLShortenRequest.validate_url.
  destruct (URLShortenRequest.has_scheme v); cbn [negb];
    match goal with |- context [Re.match_to_dollar ?p ?s] =>
      destruct (Re.match_to_dollar p s) eqn:Hm end;
    cbn [negb]; intros H; inversion H; subst; split; (reflexivity || exact Hm).
Qed.

(** C9.  A string the URL validator has returned begins with a scheme, so
    validating it again prepends nothing and returns it unchanged; and an
    accepted input that already begins with "http://" or "https://" is
    returned as it came. *)
Theorem validate_url_idempotent v v'
    (Hv : URLShortenRequest.validate_url v = Ok v') :
  URLShortenRequest.has_scheme v' = true
  /\ URLShortenRequest.validate_url v' = Ok v'
  /\ (URLShortenRequest.has_scheme v = true -> v' = v).
Proof.
  destruct (validate_url_cases v v' Hv) as [Hshape Hm].
  assert (Hs : URLShortenRequest.has_scheme v' = true).
  { rewrite Hshape. destruct (URLShortenRequest.has_scheme v) eqn:E;
      [exact E | apply has_scheme_https]. }
  split; [exact Hs | split].
  - unfold URLShortenRequest.validate_url. rewrite Hs. cbn [negb].
    rewrite Hm. reflexivity.
  - intros E. rewrite E in Hshape. exact Hshape.
Qed.

Lemma validate_url_idempotent_witness :
  URLShortenRequest.validate_url "example.com" = Ok "https://example.com"
  /\ URLShortenRequest.validate_url "https://example.com" = Ok "https://example.com".
Proof.
  assert (H : URLShortenRequest.validate_url "example.com" = Ok "https://example.com")
    by (vm_compute; reflexivity).
  split; [exact H |].
  exact (proj1 (proj2 (validate_url_idempotent "example.com" "https://example.com" H))).
Defined.

(** ** Single shortening *)

Section ShortenFacts.

Variable env : Env.

Lemma reads_only_choose_code request : reads_only (choose_code env request).
Proof.
  unfold choose_code. destruct (truthy (URLShortenRequest.custom_code request)).
  - apply reads_only_bind; [apply reads_only_check_code_exists |].
    intros [|]; [apply reads_only_raise | apply reads_only_ret].
  - apply reads_only_bind; [apply reads_only_create_unique |].
    intros code. apply reads_only_ret.
Qed.

(** A record that [shorten_url] returns carries the request's URL, no
    clicks, and is what the collection gained. *)
Lemma shorten_url_ok request w m w' :
  shorten_url env request w = (Ok m, w') ->
  original_url m = URLShortenRequest.url request
  /\ click_count m = 0
  /\ store w' = (store w ++ [m])%list.
Proof.
  unfold shorten_url, try_except.
  match goal with |- context [match ?b w with _ => _ end] =>
    destruct (b w) as [[m0 | e] w0] eqn:Eb end.
  2: { destruct (is_ValueError e); intros H; discriminate H. }
  intros H. inversion H; subst m0 w0. clear H.
  pose proof (reads_only_choose_code request w) as Hc.
  unfold bind at 1 in Eb.
  destruct (choose_code env request w) as [[choice | e] w1]; [| discriminate Eb].
  simpl in Hc. erewrite bind_ok in Eb by reflexivity.
  match type of Eb with bind (insert_one env ?d) _ ?w2 = _ =>
    destruct (insert_one_cases env d w2) as [(w3 & Ei & Hs) | (e & w3 & Ei & _)]
  end.
  - erewrite bind_ok in Eb by exact Ei. inversion Eb; subst. simpl.
    rewrite Hs. simpl. rewrite Hc. repeat split.
  - erewrite bind_raise in Eb by exact Ei. discriminate Eb.
Qed.

(** With a store that answers, a request without alias is served. *)
Lemma shorten_url_generated_returns request w :
  healthy env ->
  truthy (URLShortenRequest.custom_code request) = None ->
  exists m w', shorten_url env request w = (Ok m, w') /\ custom m = false.
Proof.
  intros Hh Hnone. unfold shorten_url.
  destruct (create_unique_returns env default_length default_max_attempts w Hh)
    as (code & w1 & Ec).
  eexists _, _. split.
  - apply try_ok. erewrite bind_ok.
    2: { unfold choose_code. rewrite Hnone. erewrite bind_ok by exact Ec.
         reflexivity. }
    erewrite bind_ok by reflexivity.
    erewrite bind_ok.
    2: { unfold insert_one. apply store_call_healthy. exact Hh. }
    reflexivity.
  - reflexivity.
Qed.

(** A taken alias: the conflict raised in the [try] is an [Exception], so
    the handler's last clause answers, and nothing is inserted. *)
Lemma shorten_url_taken_alias request alias d w :
  healthy env ->
  truthy (URLShortenRequest.custom_code request) = Some alias ->
  List.find (has_code alias) (store w) = Some d ->
  shorten_url env request w
    = (Raise (HTTPException 500 "Internal server error"),
       mkWorld (store w) (rand_pos w) (urandom_pos w) (clock_pos w) (S (calls w))).
Proof.
  intros Hh Halias Hfind. unfold shorten_url.
  erewrite try_raise.
  2: { erewrite bind_raise; [reflexivity |].
       unfold choose_code. rewrite Halias.
       erewrite bind_ok by (apply check_code_exists_healthy; exact Hh).
       rewrite Hfind. reflexivity. }
  reflexivity.
Qed.

End ShortenFacts.

(** C5.  For an input that lacks "http://" and "https://" and that the URL
    validator accepts, the validated value is "https://" followed by the
    input; shortening it without alias is served, and the record has that
    string as [original_url], [custom] false and no clicks, and is stored;
    with an alias, whenever a record is created it carries that string. *)
Theorem shorten_stores_https_prefixed_url env v v' w
    (Hh : healthy env)
    (Hs : URLShortenRequest.has_scheme v = false)
    (Hv : URLShortenRequest.validate_url v = Ok v') :
  v' = "https://" ++ v
  /\ (exists m w',
        post_shorten env v None w = (Ok m, w')
        /\ original_url m = "https://" ++ v
        /\ custom m = false
        /\ click_count m = 0
        /\ store w' = (store w ++ [m])%list)
  /\ (forall c m w',
        post_shorten env v c w = (Ok m, w') ->
        original_url m = "https://" ++ v /\ store w' = (store w ++ [m])%list).
Proof.
  destruct (validate_url_cases v v' Hv) as [Hshape _]. rewrite Hs in Hshape.
  subst v'. split; [reflexivity | split].
  - unfold post_shorten, URLShortenRequest.new. rewrite Hv. simpl.
    erewrite bind_ok by reflexivity.
    destruct (shorten_url_generated_returns env
                (URLShortenRequest.mk ("https://" ++ v) None) w Hh eq_refl)
      as (m & w' & E & Hc).
    exists m, w'. destruct (shorten_url_ok env _ w m w' E) as (Ho & Hk & Hst).
    repeat split; assumption.
  - intros c m w'. unfold post_shorten, URLShortenRequest.new. rewrite Hv.
    destruct (URLShortenRequest.validate_custom_code c) as [c' | e].
    + erewrite bind_ok by reflexivity. intros E.
      destruct (shorten_url_ok env _ w m w' E) as (Ho & _ & Hst).
      split; assumption.
    + erewrite bind_raise by reflexivity. intros E. discriminate E.
Qed.

Lemma shorten_stores_https_prefixed_url_witness :
  exists m w',
    post_shorten quiet_env "example.com" None empty_world = (Ok m, w')
    /\ original_url m = "https://example.com"
    /\ custom m = false
    /\ click_count m = 0
    /\ store w' = [m].
Proof.
  apply (shorten_stores_https_prefixed_url quiet_env "example.com"
           "https://example.com" empty_world).
  - intros n. reflexivity.
  - vm_compute. reflexivity.
  - vm_compute. reflexivity.
Defined.

(** ** Resolution *)

Lemma inc_first_split code st d :
  List.find (has_code code) st = Some d ->
  exists before after,
    st = (before ++ d :: after)%list
    /\ (forall x, In x before -> short_code x <> code)
    /\ short_code d = code
    /\ inc_first code st
       = (before ++ set_click_count (click_count d + 1) d :: after)%list.
Proof.
  induction st as [| x rest IH]; simpl; [discriminate |].
  destruct (has_code code x) eqn:Hx.
  - intros H. inversion H; subst x. exists [], rest. simpl.
    repeat split; [intros y [] | apply String.eqb_eq; exact Hx].
  - intros H. destruct (IH H) as (before & after & Hst & Hb & Hd & Hi).
    exists (x :: before), after. simpl. rewrite Hi, <- Hst.
    repeat split; [| exact Hd].
    intros y [<- | Hy]; [| apply Hb; exact Hy].
    apply String.eqb_neq. exact Hx.
Qed.

Lemma find_has_code_none code st :
  List.find (has_code code) st = None ->
  forall x, In x st -> short_code x <> code.
Proof.
  intros H x Hin. apply String.eqb_neq.
  exact (find_none (has_code code) st H x Hin).
Qed.

Lemma find_one_healthy env code w :
  healthy env ->
  find_one env code w
    = (Ok (List.find (has_code code) (store w)),
       mkWorld (store w) (rand_pos w) (urandom_pos w) (clock_pos w) (S (calls w))).
Proof. intros Hh. unfold find_one. rewrite (store_call_healthy env _ w Hh). reflexivity. Qed.

(** C3.  With a store that answers: resolving a code the collection holds
    returns a 302 redirect to the [original_url] of the first record with
    that code, and the collection afterwards is the collection before with
    that record replaced by the record of the same [id], [original_url],
    [short_code], [short_url], [custom] and [created_at] whose
    [click_count] is the old one plus 1; resolving a code the collection
    does not hold raises 404 and leaves the collection as it was. *)
Theorem redirect_counts_one_click env code w (Hh : healthy env) :
  match List.find (has_code code) (store w) with
  | Some d =>
      exists w' before after,
        redirect_to_url env code w = (Ok (mkRedirect (original_url d) 302), w')
        /\ store w = (before ++ d :: after)%list
        /\ (forall x, In x before -> short_code x <> code)
        /\ short_code d = code
        /\ store w'
           = (before
              ++ URLShortenResponse.mk (id d) (original_url d) (short_code d)
                   (short_url d) (custom d) (created_at d) (click_count d + 1)
              :: after)%list
        /\ (forall d', nth_error (store w') (List.length before) = Some d' ->
                       click_count d' = click_count d + 1)
  | None =>
      exists w',
        redirect_to_url env code w
          = (Raise (HTTPException 404 "Short URL not found"), w')
        /\ (forall x, In x (store w) -> short_code x <> code)
        /\ store w' = store w
  end.
Proof.
  unfold redirect_to_url.
  destruct (List.find (has_code code) (store w)) as [d |] eqn:Hfind.
  - destruct (inc_first_split code (store w) d Hfind)
      as (before & after & Hst & Hb & Hd & Hi).
    eexists _, before, after. split.
    { apply try_ok.
      erewrite bind_ok by (apply find_one_healthy; exact Hh).
      rewrite Hfind.
      erewrite bind_ok by (unfold update_one_inc; apply store_call_healthy; exact Hh).
      reflexivity. }
    split; [exact Hst |]. split; [exact Hb |]. split; [exact Hd |].
    cbn [store snd]. split.
    + exact Hi.
    + intros d'. rewrite Hi, nth_error_app2 by lia.
      rewrite Nat.sub_diag. cbn [nth_error]. intros Hd'. injection Hd' as <-.
      reflexivity.
  - eexists. split; [| split].
    + erewrite try_raise.
      2: { erewrite bind_ok by (apply find_one_healthy; exact Hh).
           rewrite Hfind. reflexivity. }
      reflexivity.
    + apply find_has_code_none. exact Hfind.
    + reflexivity.
Qed.

Lemma redirect_counts_one_click_witness :
  exists w' before after,
    redirect_to_url quiet_env "promo" promo_world
      = (Ok (mkRedirect "https://example.com/sale" 302), w')
    /\ store promo_world = (before ++ promo_doc :: after)%list
    /\ (forall x, In x before -> short_code x <> "promo")
    /\ short_code promo_doc = "promo"
    /\ store w'
       = (before
          ++ URLShortenResponse.mk "6f1c2a4e-0b7d-4c1a-9e55-3d2f8a9b0c11"
               "https://example.com/sale" "promo"
               "http://localhost:8001/api/r/promo" true 1700000000 4
          :: after)%list
    /\ (forall d', nth_error (store w') (List.length before) = Some d' ->
                   click_count d' = 3 + 1).
Proof.
  exact (redirect_counts_one_click quiet_env "promo" promo_world
           (fun n => eq_refl)).
Defined.

(** ** Listing *)

Lemma insert_desc_perm d l : Permutation (insert_desc d l) (d :: l).
Proof.
  induction l as [| x rest IH]; simpl; [apply Permutation_refl |].
  destruct (created_at x <=? created_at d).
  - apply Permutation_refl.
  - eapply perm_trans; [apply perm_skip; exact IH | apply perm_swap].
Qed.

Lemma sort_desc_perm l : Permutation (sort_desc l) l.
Proof.
  induction l as [| d rest IH]; simpl; [constructor |].
  eapply perm_trans; [apply insert_desc_perm | apply perm_skip; exact IH].
Qed.

Lemma insert_desc_sorted d l :
  StronglySorted newer_first l -> StronglySorted newer_first (insert_desc d l).
Proof.
  induction 1 as [| x rest Hs IH Hall]; simpl.
  - constructor; constructor.
  - destruct (created_at x <=? created_at d) eqn:Hle.
    + apply Z.leb_le in Hle. constructor; [constructor; assumption |].
      constructor; [exact Hle |].
      eapply Forall_impl; [| exact Hall].
      intros y Hy. unfold newer_first in *. lia.
    + apply Z.leb_gt in Hle. constructor; [exact IH |].
      apply (Permutation_Forall (Permutation_sym (insert_desc_perm d rest))).
      constructor; [unfold newer_first; lia | exact Hall].
Qed.

Lemma sort_desc_sorted l : StronglySorted newer_first (sort_desc l).
Proof.
  induction l as [| d rest IH]; simpl; [constructor |].
  apply insert_desc_sorted. exact IH.
Qed.

Lemma Forall_firstn_of {A} (P : A -> Prop) n l :
  Forall P l -> Forall P (firstn n l).
Proof.
  revert n. induction l as [| x rest IH]; intros [| n] H; simpl;
    try constructor.
  - inversion H; assumption.
  - apply IH. inversion H; assumption.
Qed.

Lemma firstn_sorted n l :
  StronglySorted newer_first l -> StronglySorted newer_first (firstn n l).
Proof.
  revert n. induction l as [| x rest IH]; intros [| n] H; simpl;
    try constructor.
  - apply IH. inversion H; assumption.
  - apply Forall_firstn_of. inversion H; assumption.
Qed.

(** C7.  Listing never changes the collection.  Whatever list it returns
    is the first [limit] records of the collection sorted newest first (a
    permutation of the collection, each record at least as new as all that
    follow it), so it is sorted that way itself and holds at most [limit]
    records.  With a store that answers and [limit] not negative it does
    return, with [limit] records or, if fewer are stored, all of them; the
    default limit is 50. *)
Theorem get_urls_newest_first env limit w :
  store (snd (get_urls env limit w)) = store w
  /\ (forall l w',
        get_urls env limit w = (Ok l, w') ->
        l = firstn (Z.to_nat limit) (sort_desc (store w))
        /\ Permutation (sort_desc (store w)) (store w)
        /\ StronglySorted newer_first (sort_desc (store w))
        /\ StronglySorted newer_first l
        /\ Z.of_nat (List.length l) <= limit)
  /\ (healthy env -> 0 <= limit ->
      exists l w',
        get_urls env limit w = (Ok l, w')
        /\ List.length l = Nat.min (Z.to_nat limit) (List.length (store w)))
  /\ default_limit = 50.
Proof.
  split; [| split; [| split]].
  - unfold get_urls. apply reads_only_try.
    + apply reads_only_bind; [| intros a; apply reads_only_ret].
      unfold find_sorted_to_list. destruct (limit <? 0).
      * apply reads_only_raise.
      * apply (reads_only_store_call env
                 (fun st => firstn (Z.to_nat limit) (sort_desc st))).
    + intros e. apply reads_only_raise.
  - intros l w'. unfold get_urls, try_except, bind, find_sorted_to_list.
    destruct (limit <? 0) eqn:Hneg; [intros H; discriminate H |].
    apply Z.ltb_ge in Hneg.
    unfold store_call. destruct (fault_at env (calls w)); [intros H; discriminate H |].
    simpl. intros H. inversion H; subst l. clear H.
    split; [reflexivity |]. split; [apply sort_desc_perm |].
    split; [apply sort_desc_sorted |].
    split; [apply firstn_sorted, sort_desc_sorted |].
    pose proof (firstn_le_length (Z.to_nat limit) (sort_desc (store w))). lia.
  - intros Hh Hl. unfold get_urls, find_sorted_to_list.
    apply Z.ltb_ge in Hl. rewrite Hl. eexists _, _. split.
    + apply try_ok.
      erewrite bind_ok by (apply store_call_healthy; exact Hh). reflexivity.
    + simpl. rewrite length_firstn.
      rewrite (Permutation_length (sort_desc_perm (store w))). reflexivity.
  - reflexivity.
Qed.

Lemma get_urls_newest_first_witness :
  List.length ten_docs = 10%nat
  /\ exists l w',
       get_urls quiet_env 5 (world_of ten_docs) = (Ok l, w')
       /\ List.length l = 5%nat
       /\ map created_at l = [10; 9; 8; 7; 6].
Proof.
  split; [reflexivity |].
  destruct (get_urls_newest_first quiet_env 5 (world_of ten_docs))
    as (_ & Hsome & Hret & _).
  destruct Hret as (l & w' & E & Hlen); [intros n; reflexivity | lia |].
  exists l, w'. split; [exact E |]. split; [exact Hlen |].
  destruct (Hsome l w' E) as (-> & _). vm_compute. reflexivity.
Defined.

(** ** Allocation of short codes *)

Lemma characters_alnum i :
  (i < 62)%nat ->
  PyStr.is_alnum (PyStr.index i (ascii_letters ++ digits)) = true.
Proof.
  intros Hi.
  assert (Hall : forallb (fun i => PyStr.is_alnum
                            (PyStr.index i (ascii_letters ++ digits)))
                   (seq 0 62) = true) by (vm_compute; reflexivity).
  rewrite forallb_forall in Hall. apply Hall. apply in_seq. lia.
Qed.

(** One more character: the next draw, then the rest. *)
Lemma generate_short_code_S env k w :
  generate_short_code env (S k) w
  = match generate_short_code env k
            (mkWorld (store w) (S (rand_pos w)) (urandom_pos w) (clock_pos w)
                     (calls w)) with
    | (Ok s, w2) =>
        (Ok (String (PyStr.index
                       (randbelow env (rand_pos w)
                        mod String.length (ascii_letters ++ digits))
                       (ascii_letters ++ digits)) s), w2)
    | (Raise e, w2) => (Raise e, w2)
    end.
Proof.
  cbn [generate_short_code]. unfold bind at 1, random_choice.
  unfold bind. destruct (generate_short_code env k _) as [[s | e] w2]; reflexivity.
Qed.

(** A generated code has the requested length and only letters and digits;
    generating it draws, and does nothing else. *)
Lemma generate_short_code_shape env n : forall w s w',
  generate_short_code env n w = (Ok s, w') ->
  String.length s = n /\ PyStr.all PyStr.is_alnum s = true
  /\ calls w' = calls w /\ urandom_pos w' = urandom_pos w.
Proof.
  induction n as [| n IH]; intros w s w'.
  - intros H. inversion H. repeat split.
  - rewrite generate_short_code_S.
    assert (Hchar : PyStr.is_alnum
                      (PyStr.index
                         (randbelow env (rand_pos w)
                          mod String.length (ascii_letters ++ digits))
                         (ascii_letters ++ digits)) = true).
    { apply characters_alnum.
      change (String.length (ascii_letters ++ digits)) with 62%nat.
      apply Nat.mod_upper_bound. discriminate. }
    revert Hchar. generalize (PyStr.index
                         (randbelow env (rand_pos w)
                          mod String.length (ascii_letters ++ digits))
                         (ascii_letters ++ digits)).
    intros c Hchar.
    destruct (generate_short_code env n _) as [[s1 | e] w2] eqn:E;
      intros H; [| discriminate H].
    injection H as Hs Hw. subst s w'.
    destruct (IH _ _ _ E) as (Hlen & Hall & Hc & Hu).
    cbn [String.length PyStr.all]. rewrite Hlen, Hall, Hchar.
    repeat split; assumption.
Qed.

Lemma hex_digit_is_hex x : is_hex (UUID.hex_digit (Z.land x 15)) = true.
Proof.
  change 15 with (Z.ones 4). rewrite Z.land_ones by lia.
  pose proof (Z.mod_pos_bound x (2 ^ 4) ltac:(lia)) as Hb.
  remember (x mod 2 ^ 4) as d eqn:Hd. clear Hd.
  assert (Hcases : d = 0 \/ d = 1 \/ d = 2 \/ d = 3 \/ d = 4 \/ d = 5 \/ d = 6
                   \/ d = 7 \/ d = 8 \/ d = 9 \/ d = 10 \/ d = 11 \/ d = 12
                   \/ d = 13 \/ d = 14 \/ d = 15) by lia.
  repeat (destruct Hcases as [-> | Hcases]; [reflexivity |]).
  subst d. reflexivity.
Qed.

Lemma hex_of_shape n x :
  String.length (UUID.hex_of n x) = n /\ PyStr.all is_hex (UUID.hex_of n x) = true.
Proof.
  induction n as [| n [Hlen Hall]]; simpl; [split; reflexivity |].
  rewrite Hlen, Hall, hex_digit_is_hex. split; reflexivity.
Qed.

Lemma substring_all p : forall s m,
  PyStr.all p s = true -> PyStr.all p (substring 0 m s) = true.
Proof.
  induction s as [| c s IH]; intros [| m] H; simpl in *; try reflexivity.
  apply andb_true_iff in H. destruct H as [Hc Hs].
  rewrite Hc. simpl. apply IH. exact Hs.
Qed.

Lemma substring_length_le : forall s m,
  (m <= String.length s)%nat -> String.length (substring 0 m s) = m.
Proof.
  induction s as [| c s IH]; intros [| m] H; simpl in *; try reflexivity; try lia.
  rewrite IH by lia. reflexivity.
Qed.

Lemma substring_app_exact : forall a b,
  substring 0 (String.length a) (a ++ b) = a.
Proof.
  induction a as [| c a IH]; intros b; simpl.
  - destruct b; reflexivity.
  - rewrite IH. reflexivity.
Qed.

(** The identifier-derived code: eight lower-case hexadecimal digits. *)
Lemma uuid_prefix_shape u :
  String.length (PyStr.slice_to 8 (UUID.str u)) = 8%nat
  /\ PyStr.all is_hex (PyStr.slice_to 8 (UUID.str u)) = true.
Proof.
  destruct (hex_of_shape 32 u) as [Hlen Hall].
  assert (Hl8 : String.length (substring 0 8 (UUID.hex_of 32 u)) = 8%nat)
    by (apply substring_length_le; rewrite Hlen; lia).
  assert (Hpre : PyStr.slice_to 8 (UUID.str u) = substring 0 8 (UUID.hex_of 32 u)).
  { unfold PyStr.slice_to, UUID.str. cbv zeta.
    rewrite <- Hl8 at 1. apply substring_app_exact. }
  rewrite Hpre. split; [exact Hl8 | apply substring_all; exact Hall].
Qed.

(** What allocation of a generated code does, with a store that answers:
    it returns, without touching the collection, either a candidate of
    [len] letters and digits that no record has, found within
    [max_attempts] look-ups, or, after [max_attempts] look-ups that all
    found a record, the first [len] characters of a new identifier, which
    it does not look up. *)
Lemma create_unique_short_code_result env len n : forall w,
  healthy env ->
  exists code w',
    create_unique_short_code env len n w = (Ok code, w')
    /\ store w' = store w
    /\ ((String.length code = len
         /\ PyStr.all PyStr.is_alnum code = true
         /\ List.find (has_code code) (store w) = None
         /\ (calls w < calls w' <= calls w + n)%nat)
        \/ (calls w' = calls w + n
            /\ code = PyStr.slice_to len
                        (UUID.str (UUID.v4_of_int
                                     (urandom env (urandom_pos w) mod 2 ^ 128)))
            /\ urandom_pos w' = S (urandom_pos w))%nat).
Proof.
  intros w Hh. revert w. induction n as [| n IH]; intros w;
    cbn [create_unique_short_code].
  - eexists _, _. split; [reflexivity |]. split; [reflexivity |]. right.
    simpl. rewrite Nat.add_0_r. repeat split.
  - destruct (generate_short_code_returns env len w) as (s & w1 & E1).
    pose proof (reads_only_generate env len w) as Hr. rewrite E1 in Hr. simpl in Hr.
    destruct (generate_short_code_shape env len w s w1 E1) as (Hl & Ha & Hcalls & Hupos).
    erewrite bind_ok by exact E1.
    erewrite bind_ok by (apply check_code_exists_healthy; exact Hh).
    destruct (List.find (has_code s) (store w1)) eqn:Hfind; cbn [negb].
    + match goal with |- context [create_unique_short_code env len n ?w2] =>
        destruct (IH w2) as (code & w' & E & Hst & Hcase) end.
      exists code, w'. split; [exact E |]. simpl in Hst, Hcase.
      split; [rewrite Hst; exact Hr |].
      destruct Hcase as [(Hl' & Ha' & Hf & Hc) | (Hc & Hcode & Hu)].
      * left. rewrite <- Hr. repeat split; try assumption; lia.
      * right. rewrite Hupos in *. repeat split; try lia. exact Hcode.
    + eexists _, _. split; [reflexivity |]. simpl. split; [exact Hr |]. left.
      rewrite <- Hr. repeat split; try assumption; lia.
Qed.

(** ** Where the handlers depart from their contract *)

(** C1.  A request whose alias a record already has: the request is valid,
    the look-up finds the record, nothing is inserted, and the answer is
    the generic 500 "Internal server error", not the 400 "already taken"
    that the handler raises inside its own [try]. *)
Theorem taken_alias_is_answered_with_500 :
  URLShortenRequest.new "https://google.com" (Some "promo")
    = Ok (URLShortenRequest.mk "https://google.com" (Some "promo"))
  /\ List.find (has_code "promo") (store promo_world) = Some promo_doc
  /\ choose_code quiet_env (URLShortenRequest.mk "https://google.com" (Some "promo"))
       promo_world
     = (Raise (HTTPException 400 "Custom code 'promo' is already taken"),
        mkWorld [promo_doc] 0 0 0 1)
  /\ post_shorten quiet_env "https://google.com" (Some "promo") promo_world
     = (Raise (HTTPException 500 "Internal server error"),
        mkWorld [promo_doc] 0 0 0 1).
Proof. repeat split; vm_compute; reflexivity. Qed.

(** C2.  Ten candidates that all collide, then the fallback: the first
    eight characters of the new identifier are returned without a look-up,
    here a code that a record already has, and the request ends with two
    records under one short code. *)
Theorem fallback_code_is_not_checked :
  create_unique_short_code quiet_env default_length default_max_attempts
      crowded_world
    = (Ok "00000000", mkWorld (store crowded_world) 80 1 0 10)
  /\ check_code_exists quiet_env "00000000" crowded_world
     = (Ok true, mkWorld (store crowded_world) 0 0 0 1)
  /\ exists m w',
       post_shorten quiet_env "example.com" None crowded_world = (Ok m, w')
       /\ short_code m = "00000000"
       /\ List.length (List.filter (has_code "00000000") (store w')) = 2%nat.
Proof.
  split; [vm_compute; reflexivity |]. split; [vm_compute; reflexivity |].
  eexists _, _. split; [vm_compute; reflexivity |].
  split; vm_compute; reflexivity.
Qed.

(** C8.  An alias of three valid characters followed by a line feed passes
    the alias validator, because [$] also holds just before a final line
    feed, and is stored as the short code of a record, although it is not
    made of [A-Za-z0-9_-] only. *)
Theorem alias_with_final_newline_is_stored :
  URLShortenRequest.validate_custom_code (Some newline_alias)
    = Ok (Some newline_alias)
  /\ alias_shape newline_alias = false
  /\ exists m w',
       post_shorten quiet_env "example.com" (Some newline_alias) empty_world
         = (Ok m, w')
       /\ short_code m = newline_alias
       /\ store w' = [m].
Proof.
  split; [vm_compute; reflexivity |]. split; [vm_compute; reflexivity |].
  eexists _, _. split; [vm_compute; reflexivity |].
  split; vm_compute; reflexivity.
Qed.

(** ** Further properties: the alias validator *)

Lemma fullmatch_void s : Re.fullmatch Re.Void s = false.
Proof. induction s as [| c s IH]; simpl; [reflexivity | exact IH]. Qed.

Lemma fullmatch_star_cls p s :
  Re.fullmatch (Re.Star (Re.Cls p)) s = PyStr.all p s.
Proof.
  induction s as [| c s IH]; [reflexivity |].
  cbn [Re.fullmatch Re.deriv PyStr.all]. destruct (p c); cbn [Re.cat andb].
  - exact IH.
  - apply fullmatch_void.
Qed.

(** [[class]+] matches the non-empty strings over the class. *)
Lemma fullmatch_plus_cls p s :
  Re.fullmatch (Re.plus (Re.Cls p)) s
  = match s with EmptyString => false | _ => PyStr.all p s end.
Proof.
  destruct s as [| c s]; [reflexivity |].
  unfold Re.plus. cbn [Re.fullmatch Re.deriv Re.nullable PyStr.all].
  destruct (p c); cbn [Re.cat andb].
  - apply fullmatch_star_cls.
  - apply fullmatch_void.
Qed.

Lemma split_last_app t l : PyStr.split_last (t ++ String l EmptyString) = Some (t, l).
Proof.
  induction t as [| c t IH]; [reflexivity |].
  cbn [append PyStr.split_last]. rewrite IH. reflexivity.
Qed.

Lemma split_last_spec s t l :
  PyStr.split_last s = Some (t, l) -> s = t ++ String l EmptyString.
Proof.
  revert t l. induction s as [| c s IH]; intros t l; [discriminate |].
  cbn [PyStr.split_last]. destruct (PyStr.split_last s) as [[r l'] |] eqn:E.
  - intros H. injection H as <- <-. rewrite (IH r l' eq_refl). reflexivity.
  - intros H. injection H as <- <-. destruct s; [reflexivity |].
    cbn [PyStr.split_last] in E. destruct (PyStr.split_last s) as [[? ?] |];
      discriminate E.
Qed.

Lemma length_app_string a b :
  String.length (a ++ b) = (String.length a + String.length b)%nat.
Proof. induction a as [| c a IH]; simpl; [reflexivity | rewrite IH; reflexivity]. Qed.

(** What the alias pattern accepts up to its [$]. *)
Lemma code_pattern_accepts s :
  Re.match_to_dollar URLShortenRequest.code_pattern s = true
  <-> (s <> EmptyString /\ PyStr.all is_code_char s = true)
      \/ exists t, s = t ++ LF /\ t <> EmptyString
                   /\ PyStr.all is_code_char t = true.
Proof.
  unfold Re.match_to_dollar, URLShortenRequest.code_pattern.
  change (fun c : ascii => PyStr.is_alnum c || Ascii.eqb c "_" || Ascii.eqb c "-")
    with is_code_char.
  rewrite orb_true_iff, fullmatch_plus_cls. split.
  - intros [H | H].
    + left. destruct s; [discriminate H | split; [discriminate | exact H]].
    + right. destruct (PyStr.split_last s) as [[t l] |] eqn:E; [| discriminate H].
      apply andb_true_iff in H. destruct H as [Hl Hm].
      apply Ascii.eqb_eq in Hl. subst l. rewrite fullmatch_plus_cls in Hm.
      exists t. split; [exact (split_last_spec s t _ E) |].
      destruct t; [discriminate Hm | split; [discriminate | exact Hm]].
  - intros [[Hne H] | (t & -> & Hne & H)].
    + left. destruct s; [contradiction | exact H].
    + right. unfold LF. rewrite split_last_app, fullmatch_plus_cls.
      rewrite Ascii.eqb_refl. destruct t; [contradiction | exact H].
Qed.

(** X1.  The alias validator returns an alias exactly when it has 3 to 20
    characters and is either made of letters, digits, "_" and "-" only, or
    is such a string followed by one line feed; whatever it returns is the
    value it was given; and an absent alias is returned as absent. *)
Theorem alias_accepted_iff s :
  (URLShortenRequest.validate_custom_code (Some s) = Ok (Some s)
   <-> (3 <= String.length s <= 20)%nat
       /\ (PyStr.all is_code_char s = true
           \/ exists t, s = t ++ LF /\ PyStr.all is_code_char t = true))
  /\ (forall v r, URLShortenRequest.validate_custom_code v = Ok r -> r = v)
  /\ URLShortenRequest.validate_custom_code None = Ok None.
Proof.
  split; [| split; [| reflexivity]].
  - unfold URLShortenRequest.validate_custom_code.
    destruct (String.length s <? 3)%nat eqn:H3; cbn [orb].
    { apply Nat.ltb_lt in H3. split; [intros H; discriminate H | lia]. }
    apply Nat.ltb_ge in H3.
    destruct (20 <? String.length s)%nat eqn:H20.
    { apply Nat.ltb_lt in H20. split; [intros H; discriminate H | lia]. }
    apply Nat.ltb_ge in H20.
    destruct (Re.match_to_dollar URLShortenRequest.code_pattern s) eqn:Hm;
      cbn [negb].
    + apply code_pattern_accepts in Hm. split; [intros _ | reflexivity].
      split; [lia |]. destruct Hm as [[_ H] | (t & Hs & _ & H)];
        [left; exact H | right; exists t; split; assumption].
    + split; [intros H; discriminate H |]. intros [_ H].
      assert (Htrue : Re.match_to_dollar URLShortenRequest.code_pattern s = true).
      { apply code_pattern_accepts. destruct H as [H | (t & Hs & H)].
        - left. split; [| exact H]. intros ->. simpl in H3. lia.
        - right. exists t. repeat split; try assumption.
          intros ->. subst s. simpl in H3. lia. }
      rewrite Htrue in Hm. discriminate Hm.
  - intros v r. unfold URLShortenRequest.validate_custom_code.
    destruct v as [s' |]; [| intros H; injection H as <-; reflexivity].
    destruct ((String.length s' <? 3)%nat || (20 <? String.length s')%nat);
      [intros H; discriminate H |].
    destruct (negb (Re.match_to_dollar URLShortenRequest.code_pattern s'));
      intros H; [discriminate H | injection H as <-; reflexivity].
Qed.

(** ** Further properties: the URL validator *)

Lemma all_ascii_complete c : In c all_ascii.
Proof.
  unfold all_ascii. rewrite <- (ascii_nat_embedding c).
  apply in_map, in_seq. pose proof (nat_ascii_bounded c). lia.
Qed.

Lemma ascii_forall (f : ascii -> bool) :
  forallb f all_ascii = true -> forall c, f c = true.
Proof.
  intros H c. rewrite forallb_forall in H. apply H, all_ascii_complete.
Qed.

Lemma classes_within_cat q r s :
  classes_within q r = true -> classes_within q s = true ->
  classes_within q (Re.cat r s) = true.
Proof.
  intros Hr Hs.
  destruct r; destruct s; cbn [Re.cat classes_within] in *;
    try reflexivity; try assumption;
    rewrite ?Hr, ?Hs; reflexivity.
Qed.

Lemma classes_within_alt q r s :
  classes_within q r = true -> classes_within q s = true ->
  classes_within q (Re.alt r s) = true.
Proof.
  intros Hr Hs.
  destruct r; destruct s; cbn [Re.alt classes_within] in *;
    try reflexivity; try assumption;
    rewrite ?Hr, ?Hs; reflexivity.
Qed.

Lemma classes_within_deriv q c r :
  classes_within q r = true -> classes_within q (Re.deriv c r) = true.
Proof.
  induction r as [| | p | r1 IH1 r2 IH2 | r1 IH1 r2 IH2 | r IH];
    cbn [Re.deriv classes_within]; intros H.
  - reflexivity.
  - reflexivity.
  - destruct (p c); reflexivity.
  - apply andb_true_iff in H. destruct H as [H1 H2].
    destruct (Re.nullable r1).
    + apply classes_within_alt; [apply classes_within_cat |]; auto.
    + apply classes_within_cat; auto.
  - apply andb_true_iff in H. destruct H as [H1 H2].
    apply classes_within_alt; auto.
  - apply classes_within_cat; auto.
Qed.

(** A character outside every class of the pattern cannot be its next one. *)
Lemma deriv_outside q c r :
  classes_within q r = true -> q c = false -> Re.deriv c r = Re.Void.
Proof.
  intros H Hq.
  induction r as [| | p | r1 IH1 r2 IH2 | r1 IH1 r2 IH2 | r IH];
    cbn [Re.deriv classes_within] in *.
  - reflexivity.
  - reflexivity.
  - pose proof (ascii_forall _ H c) as Hc. cbv beta in Hc. rewrite Hq in Hc.
    destruct (p c); [discriminate Hc | reflexivity].
  - apply andb_true_iff in H. destruct H as [H1 H2].
    rewrite (IH1 H1), (IH2 H2). destruct (Re.nullable r1); reflexivity.
  - apply andb_true_iff in H. destruct H as [H1 H2].
    rewrite (IH1 H1), (IH2 H2). reflexivity.
  - rewrite (IH H). reflexivity.
Qed.

(** A string the pattern matches is made of the pattern's classes. *)
Lemma fullmatch_within q s : forall r,
  classes_within q r = true -> Re.fullmatch r s = true -> PyStr.all q s = true.
Proof.
  induction s as [| c s IH]; intros r Hr Hm; [reflexivity |].
  cbn [Re.fullmatch PyStr.all] in *. destruct (q c) eqn:Hq.
  - cbn [andb]. apply (IH (Re.deriv c r)); [apply classes_within_deriv |]; assumption.
  - rewrite (deriv_outside q c r Hr Hq), fullmatch_void in Hm. discriminate Hm.
Qed.

Lemma url_pattern_no_space :
  classes_within no_space URLShortenRequest.url_pattern = true.
Proof. vm_compute. reflexivity. Qed.

(** X2.  A value the URL validator returns is the input itself or the
    input behind "https://", begins with "http://" or "https://", and holds
    no whitespace character, except that one line feed may end it. *)
Theorem accepted_url_has_no_whitespace v v'
    (Hv : URLShortenRequest.validate_url v = Ok v') :
  (v' = v \/ v' = "https://" ++ v)
  /\ URLShortenRequest.has_scheme v' = true
  /\ exists t, (v' = t \/ v' = t ++ LF) /\ PyStr.all no_space t = true.
Proof.
  destruct (validate_url_cases v v' Hv) as [Hshape Hm].
  split; [| split].
  - destruct (URLShortenRequest.has_scheme v); [left | right]; exact Hshape.
  - rewrite Hshape. destruct (URLShortenRequest.has_scheme v) eqn:E;
      [exact E | apply has_scheme_https].
  - unfold Re.match_to_dollar in Hm. apply orb_true_iff in Hm.
    destruct Hm as [Hm | Hm].
    + exists v'. split; [left; reflexivity |].
      exact (fullmatch_within no_space v' _ url_pattern_no_space Hm).
    + destruct (PyStr.split_last v') as [[t l] |] eqn:E; [| discriminate Hm].
      apply andb_true_iff in Hm. destruct Hm as [Hl Hm].
      apply Ascii.eqb_eq in Hl. subst l. exists t.
      split; [right; exact (split_last_spec v' t _ E) |].
      exact (fullmatch_within no_space t _ url_pattern_no_space Hm).
Qed.

Lemma accepted_url_has_no_whitespace_witness :
  ("http://localhost:8001/x?y=1" = "http://localhost:8001/x?y=1"
   \/ "http://localhost:8001/x?y=1" = "https://" ++ "http://localhost:8001/x?y=1")
  /\ URLShortenRequest.has_scheme "http://localhost:8001/x?y=1" = true
  /\ exists t, ("http://localhost:8001/x?y=1" = t
                \/ "http://localhost:8001/x?y=1" = t ++ LF)
               /\ PyStr.all no_space t = true.
Proof.
  apply (accepted_url_has_no_whitespace "http://localhost:8001/x?y=1").
  vm_compute. reflexivity.
Defined.

(** ** Further properties: stripping and the bulk entries *)

Lemma lstrip_cases s :
  PyStr.lstrip s = EmptyString
  \/ exists c t, PyStr.lstrip s = String c t /\ PyStr.is_space c = false.
Proof.
  induction s as [| c s IH]; [left; reflexivity |].
  cbn [PyStr.lstrip]. destruct (PyStr.is_space c) eqn:E; [exact IH |].
  right. exists c, s. split; [reflexivity | exact E].
Qed.

Lemma rstrip_nonspace_head c s :
  PyStr.is_space c = false ->
  PyStr.rstrip (String c s) = String c (PyStr.rstrip s).
Proof.
  intros E. cbn [PyStr.rstrip]. destruct (PyStr.rstrip s); [rewrite E |]; reflexivity.
Qed.

Lemma rstrip_idempotent s : PyStr.rstrip (PyStr.rstrip s) = PyStr.rstrip s.
Proof.
  induction s as [| c s IH]; [reflexivity |].
  cbn [PyStr.rstrip]. destruct (PyStr.rstrip s) as [| a r] eqn:E.
  - destruct (PyStr.is_space c) eqn:Ec; [reflexivity |].
    cbn [PyStr.rstrip]. rewrite Ec. reflexivity.
  - change (PyStr.rstrip (String c (String a r)))
      with (match PyStr.rstrip (String a r) with
            | EmptyString =>
                if PyStr.is_space c then EmptyString else String c EmptyString
            | r' => String c r'
            end).
    rewrite IH. reflexivity.
Qed.

(** The last character of a right-stripped string is not whitespace. *)
Lemma rstrip_last s t l :
  PyStr.split_last (PyStr.rstrip s) = Some (t, l) -> PyStr.is_space l = false.
Proof.
  revert t l. induction s as [| c s IH]; intros t l; [discriminate |].
  cbn [PyStr.rstrip]. destruct (PyStr.rstrip s) as [| a r] eqn:E.
  - destruct (PyStr.is_space c) eqn:Ec; [discriminate |].
    cbn [PyStr.split_last]. intros H. injection H as <- <-. exact Ec.
  - change (PyStr.split_last (String c (String a r)))
      with (match PyStr.split_last (String a r) with
            | None => Some (EmptyString, c)
            | Some (r', l') => Some (String c r', l')
            end).
    destruct (PyStr.split_last (String a r)) as [[r' l'] |] eqn:El.
    + intros H. injection H as <- <-. exact (IH r' l' eq_refl).
    + cbn [PyStr.split_last] in El.
      destruct (PyStr.split_last r) as [[? ?] |]; discriminate El.
Qed.

Lemma strip_idempotent s : PyStr.strip (PyStr.strip s) = PyStr.strip s.
Proof.
  unfold PyStr.strip.
  destruct (lstrip_cases s) as [E | (c & t & E & Hc)]; rewrite E.
  - reflexivity.
  - rewrite (rstrip_nonspace_head c t Hc). cbn [PyStr.lstrip]. rewrite Hc.
    rewrite (rstrip_nonspace_head c _ Hc), rstrip_idempotent. reflexivity.
Qed.

Lemma strip_last s t l :
  PyStr.split_last (PyStr.strip s) = Some (t, l) -> PyStr.is_space l = false.
Proof. unfold PyStr.strip. apply rstrip_last. Qed.

(** What a bulk entry that returns has made. *)
Lemma bulk_entry_ok env url w m w' :
  bulk_entry env url w = (Ok m, w') ->
  URLShortenRequest.validate_url (PyStr.strip url) = Ok (original_url m)
  /\ short_url m = short_url_of env (short_code m)
  /\ custom m = false
  /\ click_count m = 0.
Proof.
  unfold bulk_entry, URLShortenRequest.new.
  destruct (URLShortenRequest.validate_url (PyStr.strip url)) as [v | e].
  2: { erewrite bind_raise by reflexivity. intros H. discriminate H. }
  cbn [URLShortenRequest.validate_custom_code].
  erewrite bind_ok by reflexivity.
  destruct (create_unique_short_code env default_length default_max_attempts w)
    as [[code | e] w1] eqn:Ec.
  2: { erewrite bind_raise by exact Ec. intros H. discriminate H. }
  erewrite bind_ok by exact Ec.
  erewrite bind_ok by reflexivity.
  match goal with |- context [bind (insert_one env ?d) _ ?w2] =>
    destruct (insert_one_cases env d w2) as [(w3 & Ei & _) | (e & w3 & Ei & _)]
  end.
  - erewrite bind_ok by exact Ei. intros H. injection H as <- <-.
    repeat split.
  - erewrite bind_raise by exact Ei. intros H. discriminate H.
Qed.

(** X3.  A bulk entry is processed as its stripped text: surrounding
    whitespace changes neither the outcome nor the world it leaves. *)
Theorem bulk_entry_ignores_surrounding_whitespace env url w :
  bulk_entry env url w = bulk_entry env (PyStr.strip url) w
  /\ PyStr.strip (PyStr.strip url) = PyStr.strip url
  /\ (forall t l, PyStr.strip url = t ++ String l EmptyString ->
                  PyStr.is_space l = false)
  /\ (forall c t, PyStr.strip url = String c t -> PyStr.is_space c = false).
Proof.
  split; [| split; [| split]].
  - unfold bulk_entry. rewrite strip_idempotent. reflexivity.
  - apply strip_idempotent.
  - intros t l H. apply (strip_last url t l). rewrite H. apply split_last_app.
  - intros c t. unfold PyStr.strip.
    destruct (lstrip_cases url) as [E | (c0 & t0 & E & Hc)]; rewrite E.
    + discriminate.
    + rewrite (rstrip_nonspace_head c0 t0 Hc). intros H. injection H as <- _.
      exact Hc.
Qed.

(** X4.  A record created by the bulk handler carries what the URL
    validator returned for the stripped entry: a string that begins with a
    scheme and holds no whitespace at all; it is never custom, has no
    clicks, and its [short_url] is the base address, "/api/r/" and its
    short code. *)
Theorem bulk_record_fields env url w m w'
    (Hm : bulk_entry env url w = (Ok m, w')) :
  (original_url m = PyStr.strip url \/ original_url m = "https://" ++ PyStr.strip url)
  /\ URLShortenRequest.has_scheme (original_url m) = true
  /\ PyStr.all no_space (original_url m) = true
  /\ custom m = false
  /\ click_count m = 0
  /\ short_url m = backend_url env ++ "/api/r/" ++ short_code m.
Proof.
  destruct (bulk_entry_ok env url w m w' Hm) as (Hv & Hsu & Hc & Hk).
  destruct (validate_url_cases _ _ Hv) as [Hshape Hmatch].
  assert (Hor : original_url m = PyStr.strip url
                \/ original_url m = "https://" ++ PyStr.strip url).
  { destruct (URLShortenRequest.has_scheme (PyStr.strip url)); [left | right];
      exact Hshape. }
  assert (Hs : URLShortenRequest.has_scheme (original_url m) = true).
  { rewrite Hshape. destruct (URLShortenRequest.has_scheme (PyStr.strip url)) eqn:E;
      [exact E | apply has_scheme_https]. }
  repeat split; try assumption.
  unfold Re.match_to_dollar in Hmatch. apply orb_true_iff in Hmatch.
  destruct Hmatch as [Hf | Hf].
  { exact (fullmatch_within no_space _ _ url_pattern_no_space Hf). }
  exfalso.
  destruct (PyStr.split_last (original_url m)) as [[t l] |] eqn:E; [| discriminate Hf].
  apply andb_true_iff in Hf. destruct Hf as [Hl _].
  apply Ascii.eqb_eq in Hl. subst l.
  assert (Hlast : forall a, a = EmptyString \/ a = "https://" ->
                            PyStr.split_last (a ++ PyStr.strip url)
                            = Some (t, "010"%char) -> False).
  { intros a Hcase Ha. destruct (PyStr.split_last (PyStr.strip url)) as [[r l] |] eqn:Es.
    - pose proof (strip_last url r l Es) as Hsp.
      rewrite (split_last_spec _ _ _ Es) in Ha.
      assert (Hassoc : a ++ r ++ String l EmptyString
                       = (a ++ r) ++ String l EmptyString).
      { clear. induction a as [| c a IH]; simpl; [reflexivity | rewrite IH; reflexivity]. }
      rewrite Hassoc, split_last_app in Ha. injection Ha as _ Hl. subst l.
      discriminate Hsp.
    - destruct (PyStr.strip url) as [| c s]; [| cbn [PyStr.split_last] in Es;
        destruct (PyStr.split_last s) as [[? ?] |]; discriminate Es].
      destruct Hcase as [-> | ->]; vm_compute in Ha; discriminate Ha. }
  destruct Hor as [Ho | Ho]; rewrite Ho in E.
  - exact (Hlast EmptyString (or_introl eq_refl) E).
  - exact (Hlast "https://" (or_intror eq_refl) E).
Qed.

Lemma bulk_record_fields_witness :
  exists m w',
    bulk_entry quiet_env "  example.com " empty_world = (Ok m, w')
    /\ (original_url m = PyStr.strip "  example.com "
        \/ original_url m = "https://" ++ PyStr.strip "  example.com ")
    /\ URLShortenRequest.has_scheme (original_url m) = true
    /\ PyStr.all no_space (original_url m) = true
    /\ custom m = false
    /\ click_count m = 0
    /\ short_url m = backend_url quiet_env ++ "/api/r/" ++ short_code m.
Proof.
  eexists _, _. split; [vm_compute; reflexivity |].
  eapply (bulk_record_fields quiet_env "  example.com " empty_world).
  vm_compute. reflexivity.
Defined.

(** ** Further properties: short codes *)

(** X5.  Generating a code of length [n] always returns: a string of [n]
    letters and digits whose i-th character is the alphabet's character at
    the i-th draw; it takes exactly [n] draws and nothing else changes. *)
Theorem generate_short_code_draws env n : forall w,
  exists s,
    generate_short_code env n w
      = (Ok s, mkWorld (store w) (rand_pos w + n) (urandom_pos w) (clock_pos w)
                       (calls w))
    /\ String.length s = n
    /\ PyStr.all PyStr.is_alnum s = true
    /\ forall i, (i < n)%nat ->
         String.get i s
         = Some (PyStr.index (randbelow env (rand_pos w + i) mod 62)
                             (ascii_letters ++ digits)).
Proof.
  induction n as [| n IH]; intros w.
  - exists EmptyString. cbn [generate_short_code]. unfold ret.
    rewrite Nat.add_0_r. destruct w. repeat split. intros i Hi. lia.
  - rewrite generate_short_code_S.
    match goal with |- context [generate_short_code env n ?w1] =>
      destruct (IH w1) as (s & E & Hlen & Hall & Hget) end.
    rewrite E. cbn [store rand_pos urandom_pos clock_pos calls] in *.
    eexists. split; [| split; [| split]].
    + rewrite <- Nat.add_succ_comm. reflexivity.
    + cbn [String.length]. rewrite Hlen. reflexivity.
    + cbn [PyStr.all]. rewrite Hall, andb_true_r.
      apply characters_alnum.
      change (String.length (ascii_letters ++ digits)) with 62%nat.
      apply Nat.mod_upper_bound. discriminate.
    + intros [| i] Hi.
      * cbn [String.get]. rewrite Nat.add_0_r. reflexivity.
      * cbn [String.get]. rewrite (Hget i) by lia.
        rewrite <- Nat.add_succ_comm. reflexivity.
Qed.

Lemma find_has_code_in code st d :
  List.find (has_code code) st = Some d -> In code (codes st).
Proof.
  intros H. apply find_some in H. destruct H as [Hin Hc].
  apply String.eqb_eq in Hc. rewrite <- Hc. unfold codes. apply in_map. exact Hin.
Qed.

Lemma find_has_code_not_in code st :
  List.find (has_code code) st = None -> ~ In code (codes st).
Proof.
  intros H Hin. unfold codes in Hin. apply in_map_iff in Hin.
  destruct Hin as (d & Hd & Hin). exact (find_has_code_none code st H d Hin Hd).
Qed.

(** X6.  With a store that answers, the existence check says true exactly
    when some stored record has the code, and it leaves the collection as
    it was. *)
Theorem check_code_exists_iff_stored env code w (Hh : healthy env) :
  exists b w',
    check_code_exists env code w = (Ok b, w')
    /\ store w' = store w
    /\ (b = true <-> In code (codes (store w))).
Proof.
  eexists _, _. split; [apply check_code_exists_healthy; exact Hh |].
  split; [reflexivity |].
  destruct (List.find (has_code code) (store w)) as [d |] eqn:E.
  - split; [intros _; exact (find_has_code_in code _ d E) | reflexivity].
  - split; [intros H; discriminate H |].
    intros Hin. exfalso. exact (find_has_code_not_in code _ E Hin).
Qed.

Lemma check_code_exists_iff_stored_witness :
  exists b w',
    check_code_exists quiet_env "promo" promo_world = (Ok b, w')
    /\ store w' = store promo_world
    /\ (b = true <-> In "promo" (codes (store promo_world))).
Proof.
  apply (check_code_exists_iff_stored quiet_env "promo" promo_world).
  intros n. reflexivity.
Defined.

(** X7.  With a store that answers, allocation of a generated code
    returns and leaves the collection as it was.  Its result is either a
    candidate of [len] letters and digits that no stored record has, found
    with at most [n] look-ups, or, after [n] look-ups that each found a
    record, the first [len] characters of one new identifier, for which
    there is no look-up. *)
Theorem allocation_returns_free_candidate_or_fallback env len n w
    (Hh : healthy env) :
  exists code w',
    create_unique_short_code env len n w = (Ok code, w')
    /\ store w' = store w
    /\ ((String.length code = len
         /\ PyStr.all PyStr.is_alnum code = true
         /\ ~ In code (codes (store w))
         /\ (calls w < calls w' <= calls w + n)%nat
         /\ urandom_pos w' = urandom_pos w)
        \/ (calls w' = (calls w + n)%nat
            /\ code = PyStr.slice_to len
                        (UUID.str (UUID.v4_of_int
                                     (urandom env (urandom_pos w) mod 2 ^ 128)))
            /\ urandom_pos w' = S (urandom_pos w))).
Proof.
  revert w. induction n as [| n IH]; intros w; cbn [create_unique_short_code].
  - eexists _, _. split; [reflexivity |]. split; [reflexivity |]. right.
    simpl. rewrite Nat.add_0_r. repeat split.
  - destruct (generate_short_code_draws env len w) as (s & E1 & Hl & Ha & _).
    erewrite bind_ok by exact E1.
    erewrite bind_ok by (apply check_code_exists_healthy; exact Hh).
    cbn [store].
    destruct (List.find (has_code s) (store w)) eqn:Hfind; cbn [negb].
    + match goal with |- context [create_unique_short_code env len n ?w2] =>
        destruct (IH w2) as (code & w' & E & Hst & Hcase) end.
      exists code, w'. split; [exact E |].
      cbn [store calls urandom_pos] in Hst, Hcase.
      split; [exact Hst |].
      destruct Hcase as [(Hl' & Ha' & Hf & Hc & Hu) | (Hc & Hcode & Hu)].
      * left. repeat split; try assumption; lia.
      * right. repeat split; try assumption; lia.
    + eexists _, _. split; [reflexivity |]. cbn [store calls urandom_pos].
      split; [reflexivity |]. left.
      repeat split; try assumption; try lia.
      exact (find_has_code_not_in s _ Hfind).
Qed.

Lemma allocation_returns_free_candidate_or_fallback_witness :
  exists code w',
    create_unique_short_code quiet_env 8 10 promo_world = (Ok code, w')
    /\ store w' = store promo_world
    /\ ((String.length code = 8%nat
         /\ PyStr.all PyStr.is_alnum code = true
         /\ ~ In code (codes (store promo_world))
         /\ (calls promo_world < calls w' <= calls promo_world + 10)%nat
         /\ urandom_pos w' = urandom_pos promo_world)
        \/ (calls w' = (calls promo_world + 10)%nat
            /\ code = PyStr.slice_to 8
                        (UUID.str (UUID.v4_of_int
                           (urandom quiet_env (urandom_pos promo_world) mod 2 ^ 128)))
            /\ urandom_pos w' = S (urandom_pos promo_world))).
Proof.
  apply (allocation_returns_free_candidate_or_fallback quiet_env 8 10 promo_world).
  intros n. reflexivity.
Defined.

Lemma all_weaken (p q : ascii -> bool) s :
  (forall c, implb (p c) (q c) = true) ->
  PyStr.all p s = true -> PyStr.all q s = true.
Proof.
  intros Hpq. induction s as [| c s IH]; [reflexivity |].
  cbn [PyStr.all]. intros H. apply andb_true_iff in H. destruct H as [Hc Hs].
  specialize (Hpq c). rewrite Hc in Hpq. cbn [implb] in Hpq.
  rewrite Hpq, (IH Hs). reflexivity.
Qed.

Lemma alnum_is_code_char c : implb (PyStr.is_alnum c) (is_code_char c) = true.
Proof. revert c. apply ascii_forall. vm_compute. reflexivity. Qed.

Lemma hex_is_code_char c : implb (is_hex c) (is_code_char c) = true.
Proof. revert c. apply ascii_forall. vm_compute. reflexivity. Qed.

(** X8.  With a store that answers, a code that allocation with the
    default length and attempts returns has the shape asked of an alias:
    eight characters, all of them letters or digits. *)
Theorem generated_code_has_alias_shape env w code w'
    (Hh : healthy env)
    (Hc : create_unique_short_code env default_length default_max_attempts w
          = (Ok code, w')) :
  String.length code = 8%nat
  /\ alias_shape code = true
  /\ PyStr.all PyStr.is_alnum code = true.
Proof.
  destruct (create_unique_short_code_result env default_length
              default_max_attempts w Hh) as (code0 & w0 & E & _ & Hcase).
  rewrite E in Hc. injection Hc as -> ->.
  assert (Hgoal : String.length code = 8%nat
                  /\ PyStr.all is_code_char code = true
                  /\ PyStr.all PyStr.is_alnum code = true).
  { destruct Hcase as [(Hl & Ha & _) | (_ & Hcode & _)].
    - repeat split; try assumption.
      exact (all_weaken _ _ code alnum_is_code_char Ha).
    - destruct (uuid_prefix_shape
                  (UUID.v4_of_int (urandom env (urandom_pos w) mod 2 ^ 128)))
        as [Hl Hx].
      change default_length with 8%nat in Hcode. rewrite <- Hcode in Hl, Hx.
      repeat split; [exact Hl | exact (all_weaken _ _ code hex_is_code_char Hx) |].
      refine (all_weaken _ _ code _ Hx).
      apply ascii_forall. vm_compute. reflexivity. }
  destruct Hgoal as (Hl & Hcc & Han). repeat split; try assumption.
  unfold alias_shape. rewrite Hl, Hcc. reflexivity.
Qed.

Lemma generated_code_has_alias_shape_witness :
  String.length "00000000" = 8%nat
  /\ alias_shape "00000000" = true
  /\ PyStr.all PyStr.is_alnum "00000000" = true.
Proof.
  apply (generated_code_has_alias_shape quiet_env crowded_world "00000000"
           (mkWorld (store crowded_world) 80 1 0 10)).
  - intros n. reflexivity.
  - vm_compute. reflexivity.
Defined.

(** ** Further properties: the single-URL handlers *)

Lemma store_call_raise env {A} (op : list URLMapping -> A * list URLMapping) w e w' :
  store_call env op w = (Raise e, w') ->
  (exists msg, e = PyMongoError msg) /\ store w' = store w.
Proof.
  unfold store_call. destruct (fault_at env (calls w)) as [msg |].
  - intros H. injection H as <- <-. split; [exists msg |]; reflexivity.
  - destruct (op (store w)). intros H. discriminate H.
Qed.

Lemma check_code_exists_raise env code w e w' :
  check_code_exists env code w = (Raise e, w') ->
  (exists msg, e = PyMongoError msg) /\ store w' = store w.
Proof.
  unfold check_code_exists, find_one, bind.
  destruct (store_call env _ w) as [[a | e0] w0] eqn:E.
  - intros H. discriminate H.
  - intros H. injection H as <- <-. exact (store_call_raise env _ w e0 w0 E).
Qed.

Lemma create_unique_raise env len n : forall w e w',
  create_unique_short_code env len n w = (Raise e, w') ->
  (exists msg, e = PyMongoError msg) /\ store w' = store w.
Proof.
  induction n as [| n IH]; intros w e w'; cbn [create_unique_short_code].
  - intros H. discriminate H.
  - destruct (generate_short_code_draws env len w) as (s & E1 & _).
    erewrite bind_ok by exact E1.
    match goal with |- context [bind (check_code_exists env s) _ ?w1] =>
      destruct (check_code_exists env s w1) as [[b | e0] w2] eqn:Ec;
      pose proof (reads_only_check_code_exists env s w1) as Hr end.
    + erewrite bind_ok by exact Ec. rewrite Ec in Hr. cbn [snd store] in Hr.
      destruct b; cbn [negb].
      * intros H. destruct (IH _ _ _ H) as [Hm Hs]. split; [exact Hm |].
        rewrite Hs. exact Hr.
      * intros H. discriminate H.
    + erewrite bind_raise by exact Ec. intros H. injection H as <- <-.
      exact (check_code_exists_raise env s _ e0 w2 Ec).
Qed.

(** What [choose_code] can raise: the conflict, or a store fault. *)
Lemma choose_code_raise env request w e w' :
  choose_code env request w = (Raise e, w') ->
  is_ValueError e = false /\ store w' = store w.
Proof.
  unfold choose_code.
  destruct (truthy (URLShortenRequest.custom_code request)) as [alias |].
  - unfold bind. destruct (check_code_exists env alias w) as [[b | e0] w0] eqn:Ec.
    + pose proof (reads_only_check_code_exists env alias w) as Hr.
      rewrite Ec in Hr. destruct b; intros H; [| discriminate H].
      injection H as <- <-. split; [reflexivity | exact Hr].
    + intros H. injection H as <- <-.
      destruct (check_code_exists_raise env alias w e0 w0 Ec) as [[msg ->] Hs].
      split; [reflexivity | exact Hs].
  - unfold bind.
    destruct (create_unique_short_code env default_length default_max_attempts w)
      as [[code | e0] w0] eqn:Ec.
    + intros H. discriminate H.
    + intros H. injection H as <- <-.
      destruct (create_unique_raise env _ _ w e0 w0 Ec) as [[msg ->] Hs].
      split; [reflexivity | exact Hs].
Qed.

(** Every failure of [shorten_url] ends in the handler's last clause. *)
Lemma shorten_url_raise env request w e w'
    (Hr : shorten_url env request w = (Raise e, w')) :
  e = HTTPException 500 "Internal server error" /\ store w' = store w.
Proof.
  unfold shorten_url, try_except in Hr.
  match type of Hr with context [match ?b w with _ => _ end] =>
    destruct (b w) as [[m0 | e0] w0] eqn:Eb end.
  { discriminate Hr. }
  assert (Hbody : is_ValueError e0 = false /\ store w0 = store w).
  { unfold bind at 1 in Eb.
    destruct (choose_code env request w) as [[choice | e1] w1] eqn:Ec.
    - pose proof (reads_only_choose_code env request w) as Hc.
      rewrite Ec in Hc. cbn [snd] in Hc.
      erewrite bind_ok in Eb by reflexivity.
      match type of Eb with bind (insert_one env ?d) _ ?w2 = _ =>
        destruct (insert_one env d w2) as [[u | e2] w3] eqn:Ei end.
      + erewrite bind_ok in Eb by exact Ei. discriminate Eb.
      + erewrite bind_raise in Eb by exact Ei. injection Eb as <- <-.
        unfold insert_one in Ei.
        destruct (store_call_raise env _ _ e2 w3 Ei) as [[msg ->] Hs].
        split; [reflexivity |]. rewrite Hs. exact Hc.
    - injection Eb as <- <-. exact (choose_code_raise env request w e1 w1 Ec). }
  destruct Hbody as [Hv Hs]. rewrite Hv in Hr. injection Hr as <- <-.
  split; [reflexivity | exact Hs].
Qed.

(** X9.  Whatever makes [shorten_url] fail, a taken alias or a store
    fault at any call, the caller gets the 500 "Internal server error" and
    the collection is as it was: no failure of the handler is answered with
    a 400. *)
Theorem shorten_url_failure_is_500 env request w e w'
    (Hr : shorten_url env request w = (Raise e, w')) :
  e = HTTPException 500 "Internal server error" /\ store w' = store w.
Proof. exact (shorten_url_raise env request w e w' Hr). Qed.

Lemma shorten_url_failure_is_500_witness :
  HTTPException 500 "Internal server error"
    = HTTPException 500 "Internal server error"
  /\ store (mkWorld [promo_doc] 0 0 0 1) = store promo_world.
Proof.
  apply (shorten_url_failure_is_500 quiet_env
           (URLShortenRequest.mk "https://google.com" (Some "promo")) promo_world).
  vm_compute. reflexivity.
Defined.

(** X10.  With a store that answers, a request whose alias no stored
    record has is served: the record has the alias as short code, is marked
    custom, has no clicks, carries the request's URL, an identifier from the
    next [os.urandom] draw, the next clock reading, and the base address
    followed by "/api/r/" and the alias; it is appended to the collection,
    and short codes that were pairwise distinct stay so. *)
Theorem free_alias_is_allocated env request alias w
    (Hh : healthy env)
    (Halias : truthy (URLShortenRequest.custom_code request) = Some alias)
    (Hfree : ~ In alias (codes (store w))) :
  exists m w',
    shorten_url env request w = (Ok m, w')
    /\ m = URLShortenResponse.mk
             (UUID.str (UUID.v4_of_int (urandom env (urandom_pos w) mod 2 ^ 128)))
             (URLShortenRequest.url request) alias
             (backend_url env ++ "/api/r/" ++ alias) true
             (utcnow env (clock_pos w)) 0
    /\ store w' = (store w ++ [m])%list
    /\ (NoDup (codes (store w)) -> NoDup (codes (store w'))).
Proof.
  assert (Hfind : List.find (has_code alias) (store w) = None).
  { destruct (List.find (has_code alias) (store w)) as [d |] eqn:E; [| reflexivity].
    exfalso. exact (Hfree (find_has_code_in alias _ d E)). }
  eexists _, _. split; [| split; [| split]].
  - unfold shorten_url. apply try_ok.
    erewrite bind_ok.
    2: { unfold choose_code. rewrite Halias.
         erewrite bind_ok by (apply check_code_exists_healthy; exact Hh).
         rewrite Hfind. reflexivity. }
    erewrite bind_ok by reflexivity.
    erewrite bind_ok by (unfold insert_one; apply store_call_healthy; exact Hh).
    reflexivity.
  - reflexivity.
  - reflexivity.
  - cbn [store fst snd]. intros Hnd. unfold codes in *. rewrite map_app.
    cbn [map short_code].
    rewrite <- (rev_involutive (map short_code (store w) ++ [alias])%list).
    apply NoDup_rev. rewrite rev_app_distr. cbn [rev app].
    constructor.
    + rewrite <- in_rev. exact Hfree.
    + apply NoDup_rev. exact Hnd.
Qed.

Lemma free_alias_is_allocated_witness :
  exists m w',
    shorten_url quiet_env (URLShortenRequest.mk "https://github.com" (Some "gh"))
      promo_world = (Ok m, w')
    /\ m = URLShortenResponse.mk
             (UUID.str (UUID.v4_of_int
                (urandom quiet_env (urandom_pos promo_world) mod 2 ^ 128)))
             "https://github.com" "gh"
             (backend_url quiet_env ++ "/api/r/" ++ "gh") true
             (utcnow quiet_env (clock_pos promo_world)) 0
    /\ store w' = (store promo_world ++ [m])%list
    /\ (NoDup (codes (store promo_world)) -> NoDup (codes (store w'))).
Proof.
  apply (free_alias_is_allocated quiet_env
           (URLShortenRequest.mk "https://github.com" (Some "gh")) "gh" promo_world).
  - intros n. reflexivity.
  - reflexivity.
  - intros [H | []]. discriminate H.
Defined.

Lemma find_app_none {A} (f : A -> bool) l1 l2 :
  List.find f l1 = None -> List.find f (l1 ++ l2) = List.find f l2.
Proof.
  induction l1 as [| x l1 IH]; simpl; [reflexivity |].
  destruct (f x); [discriminate | exact IH].
Qed.

Lemma inc_first_app_none code l1 l2 :
  List.find (has_code code) l1 = None ->
  inc_first code (l1 ++ l2) = (l1 ++ inc_first code l2)%list.
Proof.
  induction l1 as [| x l1 IH]; simpl; [reflexivity |].
  destruct (has_code code x); [discriminate |].
  intros H. rewrite (IH H). reflexivity.
Qed.

(** X11.  Shorten, then resolve.  With a store that answers, when
    [shorten_url] returns a record whose short code no earlier record had,
    resolving that code redirects with 302 to the request's URL and leaves
    the collection as before the two calls followed by one record: the
    new record's fields with a [click_count] of 1. *)
Theorem shorten_then_redirect env request w m w1
    (Hh : healthy env)
    (Hs : shorten_url env request w = (Ok m, w1))
    (Hnew : ~ In (short_code m) (codes (store w))) :
  exists w2,
    redirect_to_url env (short_code m) w1
      = (Ok (mkRedirect (URLShortenRequest.url request) 302), w2)
    /\ store w2
       = (store w
          ++ [URLShortenResponse.mk (id m) (original_url m) (short_code m)
                (short_url m) (custom m) (created_at m) 1])%list
    /\ click_count m = 0
    /\ (forall d, nth_error (store w2) (List.length (store w)) = Some d ->
                  click_count d = 1).
Proof.
  destruct (shorten_url_ok env request w m w1 Hs) as (Ho & Hk & Hst).
  assert (Hfind : List.find (has_code (short_code m)) (store w) = None).
  { destruct (List.find (has_code (short_code m)) (store w)) as [d |] eqn:E;
      [| reflexivity].
    exfalso. exact (Hnew (find_has_code_in _ _ d E)). }
  assert (Hself : has_code (short_code m) m = true)
    by (unfold has_code; apply String.eqb_refl).
  eexists. split.
  - unfold redirect_to_url. apply try_ok.
    erewrite bind_ok by (apply find_one_healthy; exact Hh).
    rewrite Hst, (find_app_none _ _ _ Hfind). cbn [List.find]. rewrite Hself.
    erewrite bind_ok by (unfold update_one_inc; apply store_call_healthy; exact Hh).
    rewrite Ho. reflexivity.
  - assert (Hw2 : inc_first (short_code m) (store w ++ [m])
                  = (store w
                     ++ [URLShortenResponse.mk (id m) (original_url m)
                           (short_code m) (short_url m) (custom m)
                           (created_at m) 1])%list).
    { rewrite (inc_first_app_none _ _ _ Hfind).
      cbn [inc_first]. rewrite Hself, Hk. reflexivity. }
    cbn [store snd]. rewrite ?Hst, Hw2.
    split; [reflexivity |]. split; [exact Hk |].
    intros d. rewrite nth_error_app2 by lia.
    rewrite Nat.sub_diag. cbn [nth_error]. intros Hd. injection Hd as <-.
    reflexivity.
Qed.

Lemma shorten_then_redirect_witness :
  exists m w1 w2,
    shorten_url quiet_env (URLShortenRequest.mk "https://example.com" None)
      empty_world = (Ok m, w1)
    /\ redirect_to_url quiet_env (short_code m) w1
       = (Ok (mkRedirect "https://example.com" 302), w2)
    /\ store w2
       = [URLShortenResponse.mk "00000000-0000-4000-8000-000000000000"
            "https://example.com" "aaaaaaaa"
            "http://localhost:8001/api/r/aaaaaaaa" false 0 1].
Proof.
  eexists _, _.
  assert (Hs : shorten_url quiet_env
                 (URLShortenRequest.mk "https://example.com" None) empty_world
               = (Ok (URLShortenResponse.mk "00000000-0000-4000-8000-000000000000"
                        "https://example.com" "aaaaaaaa"
                        "http://localhost:8001/api/r/aaaaaaaa" false 0 0),
                  mkWorld
                    [URLShortenResponse.mk "00000000-0000-4000-8000-000000000000"
                       "https://example.com" "aaaaaaaa"
                       "http://localhost:8001/api/r/aaaaaaaa" false 0 0]
                    8 1 1 2)) by (vm_compute; reflexivity).
  destruct (shorten_then_redirect quiet_env _ empty_world _ _
              (fun n => eq_refl) Hs (fun H => H)) as (w2 & Hr & Hst & _).
  exists w2. split; [exact Hs |]. split; [exact Hr | exact Hst].
Defined.

(** ** Further properties: resolution and what the endpoints keep *)

Lemma same_but_clicks_refl d : same_but_clicks d d.
Proof. unfold same_but_clicks. repeat split; lia. Qed.

Lemma Forall2_same_refl st : Forall2 same_but_clicks st st.
Proof. induction st; constructor; [apply same_but_clicks_refl | assumption]. Qed.

Lemma inc_first_same code st : Forall2 same_but_clicks st (inc_first code st).
Proof.
  induction st as [| d rest IH]; cbn [inc_first]; [constructor |].
  destruct (has_code code d).
  - constructor; [| apply Forall2_same_refl].
    unfold same_but_clicks, set_click_count. cbn. repeat split; lia.
  - constructor; [apply same_but_clicks_refl | exact IH].
Qed.

(** Every way a resolution can end, for any schedule of store faults. *)
Lemma redirect_frame env code w :
  Forall2 same_but_clicks (store w) (store (snd (redirect_to_url env code w)))
  /\ match redirect_to_url env code w with
     | (Ok resp, w') =>
         redirect_status resp = 302
         /\ (exists d, List.find (has_code code) (store w) = Some d
                       /\ redirect_url resp = original_url d)
         /\ store w' = inc_first code (store w)
     | (Raise e, w') =>
         store w' = store w
         /\ ((e = HTTPException 404 "Short URL not found"
              /\ ~ In code (codes (store w)))
             \/ e = HTTPException 500 "Internal server error")
     end.
Proof.
  unfold redirect_to_url, try_except, bind, find_one, update_one_inc, store_call.
  destruct (fault_at env (calls w)) as [msg |]; cbn.
  { split; [apply Forall2_same_refl |]. split; [reflexivity | right; reflexivity]. }
  destruct (List.find (has_code code) (store w)) as [d |] eqn:Hfind; cbn.
  - destruct (fault_at env (S (calls w))) as [msg |]; cbn.
    + split; [apply Forall2_same_refl |].
      split; [reflexivity | right; reflexivity].
    + split; [apply inc_first_same |]. split; [reflexivity |].
      split; [exists d; split; reflexivity | reflexivity].
  - split; [apply Forall2_same_refl |]. split; [reflexivity |]. left.
    split; [reflexivity | exact (find_has_code_not_in code _ Hfind)].
Qed.


(** A lookup that succeeds followed by an update that the store fails:
    the caller gets the 500 and the click is not counted. *)
Example redirect_update_fault :
  redirect_to_url flaky_env "promo" promo_world
  = (Raise (HTTPException 500 "Internal server error"),
     mkWorld [promo_doc] 0 0 0 2).
Proof. vm_compute. reflexivity. Qed.

Lemma new_request_ok u c request :
  URLShortenRequest.new u c = Ok request ->
  URLShortenRequest.validate_url u = Ok (URLShortenRequest.url request)
  /\ URLShortenRequest.validate_custom_code c
     = Ok (URLShortenRequest.custom_code request).
Proof.
  unfold URLShortenRequest.new.
  destruct (URLShortenRequest.validate_url u) as [u' | e1];
    destruct (URLShortenRequest.validate_custom_code c) as [c' | e2];
    intros H; try discriminate H.
  injection H as <-. split; reflexivity.
Qed.

Lemma validated_url_has_scheme v v' :
  URLShortenRequest.validate_url v = Ok v' ->
  URLShortenRequest.has_scheme v' = true.
Proof.
  intros Hv. destruct (validate_url_cases v v' Hv) as [Hshape _].
  rewrite Hshape. destruct (URLShortenRequest.has_scheme v) eqn:E;
    [exact E | apply has_scheme_https].
Qed.

Lemma bulk_run_well_formed env idx urls w rs es w' :
  bulk_run env idx urls w rs es w' -> Forall well_formed rs.
Proof.
  induction 1 as [idx w | idx url rest w m w1 rs es w2 E _ IH
                 | idx url rest w e w1 rs es w2 E _ IH].
  - constructor.
  - constructor; [| exact IH].
    destruct (bulk_entry_ok env url w m w1 E) as (Hv & _ & _ & Hk).
    split; [exact (validated_url_has_scheme _ _ Hv) | rewrite Hk; lia].
  - exact IH.
Qed.

Lemma reads_only_get_urls env limit : reads_only (get_urls env limit).
Proof.
  unfold get_urls. apply reads_only_try.
  - apply reads_only_bind; [| intros a; apply reads_only_ret].
    unfold find_sorted_to_list. destruct (limit <? 0).
    + apply reads_only_raise.
    + apply (reads_only_store_call env
               (fun st => firstn (Z.to_nat limit) (sort_desc st))).
  - intros e. apply reads_only_raise.
Qed.

(** X13.  If every stored document has a URL that begins with "http://" or
    "https://" and a click count that is not negative, then so has every
    document stored after any call of the four endpoints, whatever its
    arguments, its outcome and the store's faults. *)
Theorem endpoints_keep_documents_well_formed env w
    (Hwf : Forall well_formed (store w)) :
  (forall u c, Forall well_formed (store (snd (post_shorten env u c w))))
  /\ (forall urls, Forall well_formed (store (snd (post_shorten_bulk env urls w))))
  /\ (forall code, Forall well_formed (store (snd (redirect_to_url env code w))))
  /\ (forall limit, Forall well_formed (store (snd (get_urls env limit w)))).
Proof.
  split; [| split; [| split]].
  - intros u c. unfold post_shorten, lift, bind.
    destruct (URLShortenRequest.new u c) as [request | e] eqn:En; [| exact Hwf].
    destruct (new_request_ok u c request En) as [Hv _].
    destruct (shorten_url env request w) as [[m | e] w'] eqn:Es; cbn [snd].
    + destruct (shorten_url_ok env request w m w' Es) as (Ho & Hk & Hst).
      rewrite Hst. apply Forall_app. split; [exact Hwf |].
      constructor; [| constructor]. split.
      * rewrite Ho. exact (validated_url_has_scheme _ _ Hv).
      * rewrite Hk. lia.
    + destruct (shorten_url_raise env request w e w' Es) as [_ Hst].
      rewrite Hst. exact Hwf.
  - intros urls. unfold post_shorten_bulk, lift, bind.
    destruct (BulkURLShortenRequest.new urls) as [request | e]; [| exact Hwf].
    destruct (shorten_urls_bulk_run env request w) as (rs & es & w' & E & Hr).
    rewrite E. cbn [snd]. rewrite (bulk_run_store env _ _ _ _ _ _ Hr).
    apply Forall_app. split; [exact Hwf |].
    exact (bulk_run_well_formed env _ _ _ _ _ _ Hr).
  - intros code. destruct (redirect_frame env code w) as [Hsame _].
    revert Hwf Hsame. generalize (store (snd (redirect_to_url env code w))).
    generalize (store w). clear.
    intros st st' Hwf Hsame. induction Hsame as [| d d' st st' Hd _ IH];
      [constructor |].
    inversion Hwf as [| ? ? [Hs Hk] Hrest]; subst.
    constructor; [| exact (IH Hrest)].
    destruct Hd as (_ & Ho & _ & _ & _ & _ & Hc). split; [rewrite Ho; exact Hs | lia].
  - intros limit. rewrite (reads_only_get_urls env limit w). exact Hwf.
Qed.

Lemma endpoints_keep_documents_well_formed_witness :
  Forall well_formed (store (snd (post_shorten flaky_env "example.com" None promo_world)))
  /\ Forall well_formed
       (store (snd (post_shorten_bulk quiet_env ["twitter.com"; "bad url"] promo_world)))
  /\ Forall well_formed (store (snd (redirect_to_url quiet_env "promo" promo_world)))
  /\ Forall well_formed (store (snd (get_urls quiet_env 5 promo_world))).
Proof.
  assert (Hwf : Forall well_formed (store promo_world)).
  { constructor; [| constructor]. split; [vm_compute; reflexivity | cbn; lia]. }
  destruct (endpoints_keep_documents_well_formed flaky_env promo_world Hwf)
    as (H1 & _).
  destruct (endpoints_keep_documents_well_formed quiet_env promo_world Hwf)
    as (_ & H2 & H3 & H4).
  split; [apply H1 | split; [apply H2 | split; [apply H3 | apply H4]]].
Defined.

(** ** Further properties: whole batches *)

(** With a store that answers, an entry whose stripped text the URL
    validator accepts is created. *)
Lemma bulk_entry_returns env url v w :
  healthy env ->
  URLShortenRequest.validate_url (PyStr.strip url) = Ok v ->
  exists m w', bulk_entry env url w = (Ok m, w').
Proof.
  intros Hh Hv. unfold bulk_entry, URLShortenRequest.new. rewrite Hv.
  cbn [URLShortenRequest.validate_custom_code].
  erewrite bind_ok by reflexivity.
  destruct (create_unique_returns env default_length default_max_attempts w Hh)
    as (code & w1 & Ec).
  erewrite bind_ok by exact Ec.
  erewrite bind_ok by reflexivity.
  erewrite bind_ok by (unfold insert_one; apply store_call_healthy; exact Hh).
  eexists _, _. reflexivity.
Qed.

Lemma bulk_run_all_valid env idx urls w rs es w' :
  healthy env ->
  Forall (fun u => exists v, URLShortenRequest.validate_url (PyStr.strip u) = Ok v)
         urls ->
  bulk_run env idx urls w rs es w' ->
  es = []
  /\ Forall2 (fun u m => URLShortenRequest.validate_url (PyStr.strip u)
                         = Ok (original_url m)) urls rs.
Proof.
  intros Hh Hall Hrun.
  induction Hrun as [idx w | idx url rest w m w1 rs es w2 E _ IH
                    | idx url rest w e w1 rs es w2 E _ IH].
  - split; constructor.
  - inversion Hall as [| ? ? _ Hrest]; subst.
    destruct (IH Hrest) as [-> Hf]. split; [reflexivity |].
    constructor; [| exact Hf].
    exact (proj1 (bulk_entry_ok env url w m w1 E)).
  - exfalso. inversion Hall as [| ? ? [v Hv] _]; subst.
    destruct (bulk_entry_returns env url v w Hh Hv) as (m & w0 & E0).
    rewrite E0 in E. discriminate E.
Qed.

(** X14.  With a store that answers, a batch in which the URL validator
    accepts every stripped entry has no errors: there is one record per
    entry, in input order, each carrying the validated URL of its entry,
    and [total_processed] is the number of entries. *)
Theorem bulk_of_valid_entries_has_no_errors env urls w
    (Hh : healthy env)
    (Hall : Forall (fun u => exists v,
                      URLShortenRequest.validate_url (PyStr.strip u) = Ok v) urls) :
  exists resp w',
    shorten_urls_bulk env (BulkURLShortenRequest.mk urls) w = (Ok resp, w')
    /\ BulkURLShortenResponse.errors resp = []
    /\ Forall2 (fun u m => URLShortenRequest.validate_url (PyStr.strip u)
                           = Ok (original_url m))
               urls (BulkURLShortenResponse.results resp)
    /\ BulkURLShortenResponse.total_processed resp = Z.of_nat (List.length urls)
    /\ store w' = (store w ++ BulkURLShortenResponse.results resp)%list.
Proof.
  destruct (shorten_urls_bulk_run env (BulkURLShortenRequest.mk urls) w)
    as (rs & es & w' & E & Hr).
  cbn [BulkURLShortenRequest.urls] in Hr.
  destruct (bulk_run_all_valid env 0 urls w rs es w' Hh Hall Hr) as [-> Hf].
  eexists _, _. split; [exact E |]. cbn.
  split; [reflexivity |]. split; [exact Hf |]. split.
  - pose proof (bulk_run_length env _ _ _ _ _ _ Hr) as Hl. cbn in Hl.
    rewrite Nat.add_0_r in Hl. rewrite Hl. reflexivity.
  - exact (bulk_run_store env _ _ _ _ _ _ Hr).
Qed.

Lemma bulk_of_valid_entries_has_no_errors_witness :
  exists resp w',
    shorten_urls_bulk quiet_env
      (BulkURLShortenRequest.mk ["https://stackoverflow.com"; " twitter.com"])
      empty_world = (Ok resp, w')
    /\ BulkURLShortenResponse.errors resp = []
    /\ Forall2 (fun u m => URLShortenRequest.validate_url (PyStr.strip u)
                           = Ok (original_url m))
               ["https://stackoverflow.com"; " twitter.com"]
               (BulkURLShortenResponse.results resp)
    /\ BulkURLShortenResponse.total_processed resp = 2
    /\ store w' = (store empty_world ++ BulkURLShortenResponse.results resp)%list.
Proof.
  apply (bulk_of_valid_entries_has_no_errors quiet_env
           ["https://stackoverflow.com"; " twitter.com"] empty_world).
  - intros n. reflexivity.
  - repeat constructor; eexists; vm_compute; reflexivity.
Defined.

Lemma validate_url_raise v e :
  URLShortenRequest.validate_url v = Raise e -> e = ValueError "Invalid URL format".
Proof.
  unfold URLShortenRequest.validate_url.
  match goal with |- context [negb ?b] => destruct b end; cbn [negb];
    intros H; [discriminate H | injection H as <-; reflexivity].
Qed.

(** An entry that fails validation costs nothing. *)
Lemma bulk_entry_invalid env url w :
  (forall v, URLShortenRequest.validate_url (PyStr.strip url) <> Ok v) ->
  bulk_entry env url w = (Raise invalid_url_error, w).
Proof.
  intros Hbad. unfold bulk_entry, URLShortenRequest.new.
  destruct (URLShortenRequest.validate_url (PyStr.strip url)) as [v | e] eqn:Ev.
  - exfalso. exact (Hbad v eq_refl).
  - rewrite (validate_url_raise _ e Ev). reflexivity.
Qed.

Lemma bulk_loop_all_invalid env urls : forall idx acc w,
  Forall (fun u => forall v,
            URLShortenRequest.validate_url (PyStr.strip u) <> Ok v) urls ->
  bulk_loop env idx urls acc w
  = (Ok (fst acc, (snd acc ++ invalid_lines env idx urls)%list), w).
Proof.
  induction urls as [| url rest IH]; intros idx [racc eacc] w Hall.
  - cbn. rewrite app_nil_r. reflexivity.
  - inversion Hall as [| ? ? Hbad Hrest]; subst.
    rewrite (bulk_loop_failed env idx url rest _ w _ w (bulk_entry_invalid env url w Hbad)).
    rewrite (IH (S idx) _ w Hrest). cbn [fst snd invalid_lines].
    rewrite <- app_assoc. reflexivity.
Qed.

Lemma invalid_lines_nth env urls : forall idx i url,
  nth_error urls i = Some url ->
  nth_error (invalid_lines env idx urls) i
  = Some (error_line env (idx + i) url invalid_url_error).
Proof.
  induction urls as [| u rest IH]; intros idx [| i] url H; cbn in H;
    try discriminate H.
  - injection H as ->. cbn [invalid_lines nth_error]. rewrite Nat.add_0_r.
    reflexivity.
  - cbn [invalid_lines nth_error]. rewrite (IH (S idx) i url H).
    rewrite Nat.add_succ_comm. reflexivity.
Qed.

(** X15.  A batch in which no stripped entry passes the URL validator
    creates nothing and touches nothing: the world afterwards is the world
    before (no store call, no draw, no clock reading), [results] is
    empty, [total_processed] is 0, and there is one line per entry, in
    order, each quoting the entry as received with the validation error. *)
Theorem bulk_of_invalid_entries_touches_nothing env urls w
    (Hall : Forall (fun u => forall v,
                      URLShortenRequest.validate_url (PyStr.strip u) <> Ok v) urls) :
  shorten_urls_bulk env (BulkURLShortenRequest.mk urls) w
  = (Ok (BulkURLShortenResponse.mk [] 0 (invalid_lines env 0 urls)), w)
  /\ List.length (invalid_lines env 0 urls) = List.length urls
  /\ forall i url, nth_error urls i = Some url ->
       nth_error (invalid_lines env 0 urls) i
       = Some ("URL " ++ PyStr.of_nat (i + 1) ++ " (" ++ url ++ "): "
               ++ str_exn env invalid_url_error).
Proof.
  split; [| split].
  - unfold shorten_urls_bulk. cbn [BulkURLShortenRequest.urls].
    erewrite bind_ok by (apply bulk_loop_all_invalid; exact Hall). reflexivity.
  - clear. generalize 0%nat. induction urls as [| u rest IH]; intros idx;
      cbn; [reflexivity | rewrite IH; reflexivity].
  - intros i url H. rewrite (invalid_lines_nth env urls 0 i url H). reflexivity.
Qed.

Lemma bulk_of_invalid_entries_touches_nothing_witness :
  shorten_urls_bulk flaky_env (BulkURLShortenRequest.mk ["not-a-url"; " "])
    promo_world
  = (Ok (BulkURLShortenResponse.mk [] 0
           (invalid_lines flaky_env 0 ["not-a-url"; " "])), promo_world)
  /\ List.length (invalid_lines flaky_env 0 ["not-a-url"; " "]) = 2%nat.
Proof.
  destruct (bulk_of_invalid_entries_touches_nothing flaky_env ["not-a-url"; " "]
              promo_world) as (H1 & H2 & _).
  - repeat constructor; intros v H; vm_compute in H; discriminate H.
  - split; [exact H1 | exact H2].
Defined.

(** ** Further properties: listing and the smoke-test client *)

(** X16.  With a store that answers and a limit of at least the number
    of stored records, listing returns every stored record exactly once,
    newest first, and leaves the collection as it was. *)
Theorem get_urls_lists_everything env limit w
    (Hh : healthy env)
    (Hall : Z.of_nat (List.length (store w)) <= limit) :
  exists l w',
    get_urls env limit w = (Ok l, w')
    /\ Permutation l (store w)
    /\ StronglySorted newer_first l
    /\ store w' = store w.
Proof.
  assert (Hneg : (limit <? 0) = false) by (apply Z.ltb_ge; lia).
  eexists _, _. split; [| split; [| split]].
  - unfold get_urls, find_sorted_to_list. rewrite Hneg. apply try_ok.
    erewrite bind_ok by (apply store_call_healthy; exact Hh). reflexivity.
  - cbn [fst]. rewrite firstn_all2; [apply sort_desc_perm |].
    rewrite (Permutation_length (sort_desc_perm (store w))). lia.
  - cbn [fst]. apply firstn_sorted, sort_desc_sorted.
  - reflexivity.
Qed.

Lemma get_urls_lists_everything_witness :
  exists l w',
    get_urls quiet_env default_limit (world_of ten_docs) = (Ok l, w')
    /\ Permutation l (store (world_of ten_docs))
    /\ StronglySorted newer_first l
    /\ store w' = store (world_of ten_docs).
Proof.
  apply (get_urls_lists_everything quiet_env default_limit (world_of ten_docs)).
  - intros n. reflexivity.
  - vm_compute. discriminate.
Defined.

Lemma append_assoc_string a b c : (a ++ b) ++ c = a ++ b ++ c.
Proof. induction a as [| x a IH]; cbn; [reflexivity | rewrite IH; reflexivity]. Qed.

Lemma startswith_api_slash e :
  PyStr.startswith "/api" e = true -> PyStr.startswith "/" e = true.
Proof.
  unfold PyStr.startswith. destruct e as [| c e]; [intros H; discriminate H |].
  cbn [String.prefix]. destruct (ascii_dec "/" c); [| intros H; discriminate H].
  intros _. destruct e; reflexivity.
Qed.

(** X17.  The address the test client builds is the base address followed
    by the endpoint when the endpoint begins with "/", and by "/api/" and
    the endpoint otherwise; and when [BACKEND_URL] is the client's base
    address, the address it resolves a short code at is the [short_url] the
    service stores for that code. *)
Theorem tester_resolves_at_short_url env base code
    (Hb : BACKEND_URL env = Some base) :
  URLShortenerTester.request_url base (URLShortenerTester.redirect_endpoint code)
    = short_url_of env code
  /\ forall endpoint,
       URLShortenerTester.request_url base endpoint
       = base ++ (if PyStr.startswith "/" endpoint then endpoint
                  else "/api/" ++ endpoint).
Proof.
  assert (Hgen : forall endpoint,
             URLShortenerTester.request_url base endpoint
             = base ++ (if PyStr.startswith "/" endpoint then endpoint
                        else "/api/" ++ endpoint)).
  { intros endpoint. unfold URLShortenerTester.request_url.
    destruct (PyStr.startswith "/api" endpoint) eqn:Ea.
    - rewrite (startswith_api_slash endpoint Ea). reflexivity.
    - destruct (PyStr.startswith "/" endpoint); [reflexivity |].
      unfold URLShortenerTester.api_url. rewrite append_assoc_string. reflexivity. }
  split; [| exact Hgen].
  rewrite Hgen. unfold URLShortenerTester.redirect_endpoint, short_url_of, backend_url.
  rewrite Hb. reflexivity.
Qed.

Lemma tester_resolves_at_short_url_witness :
  URLShortenerTester.request_url "https://url-minifier.preview.emergentagent.com"
    (URLShortenerTester.redirect_endpoint "aaaaaaaa")
  = "https://url-minifier.preview.emergentagent.com/api/r/aaaaaaaa".
Proof.
  exact (proj1 (tester_resolves_at_short_url
                  (mkEnv (fun _ => 0%nat) (fun _ => 0) (fun n => Z.of_nat n)
                         (fun _ => None)
                         (Some "https://url-minifier.preview.emergentagent.com")
                         (fun _ => EmptyString))
                  "https://url-minifier.preview.emergentagent.com" "aaaaaaaa"
                  eq_refl)).
Defined.

(** ** Further properties: uniqueness of short codes *)

(** A record that [shorten_url] returns has the code [choose_code] chose,
    and one more store call made it. *)
Lemma shorten_url_ok_choice env request w m w' :
  shorten_url env request w = (Ok m, w') ->
  exists choice w1,
    choose_code env request w = (Ok choice, w1)
    /\ short_code m = fst choice
    /\ custom m = snd choice
    /\ calls w' = S (calls w1)
    /\ store w' = (store w ++ [m])%list.
Proof.
  intros Hs. destruct (shorten_url_ok env request w m w' Hs) as (_ & _ & Hst).
  unfold shorten_url, try_except in Hs.
  match type of Hs with context [match ?b w with _ => _ end] =>
    destruct (b w) as [[m0 | e] w0] eqn:Eb end.
  2: { destruct (is_ValueError e); discriminate Hs. }
  injection Hs as -> ->.
  unfold bind at 1 in Eb.
  destruct (choose_code env request w) as [[choice | e] w1]; [| discriminate Eb].
  erewrite bind_ok in Eb by reflexivity.
  unfold bind, insert_one, store_call in Eb. cbn [calls] in Eb.
  destruct (fault_at env (calls w1)); [discriminate Eb |].
  injection Eb as <- <-. exists choice, w1. repeat split. exact Hst.
Qed.

Lemma NoDup_snoc {A} (l : list A) x : NoDup l -> ~ In x l -> NoDup (l ++ [x]).
Proof.
  intros Hnd Hx. rewrite <- (rev_involutive (l ++ [x])).
  apply NoDup_rev. rewrite rev_app_distr. cbn [rev app].
  constructor; [rewrite <- in_rev; exact Hx | apply NoDup_rev; exact Hnd].
Qed.

(** X18.  With a store that answers, a request served by [shorten_url]
    on a collection of pairwise distinct short codes leaves them pairwise
    distinct, unless the record's code is the identifier fallback: then
    ten look-ups and the insert were made, and the code is the first
    eight characters of the identifier drawn. *)
Theorem shorten_url_keeps_codes_distinct_unless_fallback env request w m w'
    (Hh : healthy env)
    (Hnd : NoDup (codes (store w)))
    (Hs : shorten_url env request w = (Ok m, w')) :
  NoDup (codes (store w'))
  \/ (truthy (URLShortenRequest.custom_code request) = None
      /\ calls w' = (calls w + 11)%nat
      /\ short_code m
         = PyStr.slice_to 8
             (UUID.str (UUID.v4_of_int (urandom env (urandom_pos w) mod 2 ^ 128)))).
Proof.
  destruct (shorten_url_ok_choice env request w m w' Hs)
    as (choice & w1 & Ec & Hcode & _ & Hcalls & Hst).
  assert (Hfresh : ~ In (short_code m) (codes (store w)) -> NoDup (codes (store w'))).
  { intros Hn. rewrite Hst. unfold codes in *. rewrite map_app. cbn [map].
    apply NoDup_snoc; assumption. }
  unfold choose_code in Ec.
  destruct (truthy (URLShortenRequest.custom_code request)) as [alias |].
  - left. apply Hfresh.
    erewrite bind_ok in Ec by (apply check_code_exists_healthy; exact Hh).
    destruct (List.find (has_code alias) (store w)) eqn:Hfind; [discriminate Ec |].
    injection Ec as <- _. rewrite Hcode. cbn [fst].
    exact (find_has_code_not_in alias _ Hfind).
  - destruct (create_unique_short_code_result env default_length
                default_max_attempts w Hh) as (code & w2 & E & _ & Hcase).
    erewrite bind_ok in Ec by exact E. injection Ec as <- <-.
    cbn [fst] in Hcode.
    destruct Hcase as [(_ & _ & Hfind & _) | (Hc & Hfb & _)].
    + left. apply Hfresh. rewrite Hcode.
      exact (find_has_code_not_in code _ Hfind).
    + right. split; [reflexivity |]. split.
      * rewrite Hcalls, Hc. unfold default_max_attempts. lia.
      * rewrite Hcode. exact Hfb.
Qed.

Lemma shorten_url_keeps_codes_distinct_unless_fallback_witness :
  exists m w',
    shorten_url quiet_env (URLShortenRequest.mk "https://example.com" None)
      promo_world = (Ok m, w')
    /\ (NoDup (codes (store w'))
        \/ (truthy None = None
            /\ calls w' = (calls promo_world + 11)%nat
            /\ short_code m
               = PyStr.slice_to 8
                   (UUID.str (UUID.v4_of_int
                      (urandom quiet_env (urandom_pos promo_world) mod 2 ^ 128))))).
Proof.
  eexists _, _. split; [vm_compute; reflexivity |].
  apply (shorten_url_keeps_codes_distinct_unless_fallback quiet_env
           (URLShortenRequest.mk "https://example.com" None) promo_world).
  - intros n. reflexivity.
  - repeat constructor. intros [].
  - vm_compute. reflexivity.
Defined.

(** X19.  How the single-URL endpoint can fail.  When a validator refuses
    the body the outcome is the request model's validation error, which
    names "url" exactly when the URL validator refused and "custom_code"
    exactly when the alias validator refused, and the world is untouched;
    otherwise the handler ran, the outcome is the 500, and the collection
    is as it was. *)
Theorem post_shorten_failures env u c w e w'
    (Hr : post_shorten env u c w = (Raise e, w')) :
  (exists errs,
     e = ValidationError "URLShortenRequest" errs
     /\ errs <> []
     /\ w' = w
     /\ (In ("url", "Invalid URL format") errs
         <-> forall v, URLShortenRequest.validate_url u <> Ok v)
     /\ ((exists msg, In ("custom_code", msg) errs)
         <-> forall r, URLShortenRequest.validate_custom_code c <> Ok r))
  \/ (e = HTTPException 500 "Internal server error"
      /\ store w' = store w
      /\ exists request, URLShortenRequest.new u c = Ok request).
Proof.
  unfold post_shorten, lift, bind in Hr.
  destruct (URLShortenRequest.new u c) as [request | e0] eqn:En.
  { right. destruct (shorten_url_raise env request w e w' Hr) as [He Hst].
    split; [exact He |]. split; [exact Hst |]. exists request. reflexivity. }
  injection Hr as <- <-. left.
  unfold URLShortenRequest.new in En.
  assert (Hcc : forall e1, URLShortenRequest.validate_custom_code c = Raise e1 ->
                  exists msg, e1 = ValueError msg).
  { intros e1. unfold URLShortenRequest.validate_custom_code.
    destruct c as [s |]; [| discriminate].
    destruct ((String.length s <? 3)%nat || (20 <? String.length s)%nat).
    - intros H. injection H as <-. eexists. reflexivity.
    - destruct (negb (Re.match_to_dollar URLShortenRequest.code_pattern s));
        intros H; [injection H as <-; eexists; reflexivity | discriminate H]. }
  destruct (URLShortenRequest.validate_url u) as [u' | e1] eqn:Eu;
    destruct (URLShortenRequest.validate_custom_code c) as [c' | e2] eqn:Ecc;
    try discriminate En; injection En as <-.
  - destruct (Hcc e2 eq_refl) as [msg ->].
    eexists. split; [reflexivity |]. cbn. split; [discriminate |].
    split; [reflexivity |]. split.
    + split; [intros [H | []]; discriminate H | intros H; exfalso; exact (H u' eq_refl)].
    + split; [intros _ r H; discriminate H | intros _; exists msg; left; reflexivity].
  - rewrite (validate_url_raise u e1 Eu).
    eexists. split; [reflexivity |]. cbn. split; [discriminate |].
    split; [reflexivity |]. split.
    + split; [intros _ v H; discriminate H | intros _; left; reflexivity].
    + split; [intros (msg & [H | []]); discriminate H
             | intros H; exfalso; exact (H c' eq_refl)].
  - rewrite (validate_url_raise u e1 Eu). destruct (Hcc e2 eq_refl) as [msg ->].
    eexists. split; [reflexivity |]. cbn. split; [discriminate |].
    split; [reflexivity |]. split.
    + split; [intros _ v H; discriminate H | intros _; left; reflexivity].
    + split; [intros _ r H; discriminate H
             | intros _; exists msg; right; left; reflexivity].
Qed.

Lemma post_shorten_failures_witness :
  exists errs,
    post_shorten quiet_env "not-a-url" (Some "ab") promo_world
      = (Raise (ValidationError "URLShortenRequest" errs), promo_world)
    /\ In ("url", "Invalid URL format") errs
    /\ exists msg, In ("custom_code", msg) errs.
Proof.
  assert (Hr : post_shorten quiet_env "not-a-url" (Some "ab") promo_world
               = (Raise (ValidationError "URLShortenRequest"
                           [("url", "Invalid URL format");
                            ("custom_code",
                             "Custom code must be between 3 and 20 characters")]),
                  promo_world)) by (vm_compute; reflexivity).
  eexists. split; [exact Hr |].
  destruct (post_shorten_failures quiet_env "not-a-url" (Some "ab") promo_world
              _ _ Hr) as [(errs & He & _ & _ & Hu & Hc) | (He & _)];
    [| discriminate He].
  injection He as <-. split.
  - apply Hu. intros v H. vm_compute in H. discriminate H.
  - apply Hc. intros r H. vm_compute in H. discriminate H.
Defined.
